(** * start_esp/fetch_service_config.py: rollout selection and config validation

    A shallow embedding of [fetch_latest_rollout], [fetch_service_json] and
    [validate_service_config], and of the metadata fetchers
    [fetch_service_name], [fetch_service_config_id] and [fetch_access_token],
    with the Python semantics they rely on written
    out: decoded JSON values, subscripting and [dict.get], truthiness,
    exceptions, the HTTP client as a scripted collaborator, and the in-place
    update of the config document.  [json.loads] and the rendering of
    non-string values by [str.format] are parameters; text is kept as
    strings, without its encoding. *)

From Stdlib Require Import ZArith String List Bool Ascii Lia.
From Stdlib Require Import DecimalString SpecFloat.
Import ListNotations.

Local Open Scope string_scope.
Local Open Scope Z_scope.

Set Warnings "-register-all".

(** ** Decoded JSON values

    What [json.loads] builds: [None], [True]/[False], integers, floats,
    strings, lists and dicts.  A dict is kept as the list of its items in
    iteration order. *)

Inductive json : Type :=
| JNull
| JBool (b : bool)
| JInt (z : Z)
| JFloat (f : spec_float)
| JString (s : string)
| JArray (items : list json)
| JObject (fields : list (string * json)).

(** ** Exceptions and results *)

Inductive exn : Type :=
| FetchError (code : Z) (message : string)   (* class FetchError(Exception) *)
| KeyError (key : string)                    (* d[k] on a dict without k *)
| TypeError                                  (* subscripting or iterating a non-container *)
| AttributeError                             (* .get on something that is not a dict *)
| ValueError.                                (* json.loads on malformed text *)

Inductive outcome (A : Type) : Type :=
| Return (a : A)
| Raise (e : exn).

Arguments Return {A} a.
Arguments Raise {A} e.

Definition bind {A B : Type} (m : outcome A) (k : A -> outcome B) : outcome B :=
  match m with
  | Return a => k a
  | Raise e => Raise e
  end.

Declare Scope py_scope.
Delimit Scope py_scope with py.
Notation "x <- m ;; k" := (bind m (fun x => k))
  (at level 100, m at next level, right associativity) : py_scope.

(** ** Dict primitives *)

Module Dict.

(** Lookup of a key: the value of its item. *)
Fixpoint get (k : string) (d : list (string * json)) : option json :=
  match d with
  | [] => None
  | (k', v) :: rest => if String.eqb k k' then Some v else get k rest
  end.

(** [d[k] = v]: an existing key keeps its position and takes the new
    value; a new key is added at the end. *)
Fixpoint set (k : string) (v : json) (d : list (string * json))
  : list (string * json) :=
  match d with
  | [] => [(k, v)]
  | (k', v') :: rest =>
      if String.eqb k k' then (k', v) :: rest else (k', v') :: set k v rest
  end.

Definition keys (d : list (string * json)) : list string := map fst d.

End Dict.

(** ** Python operations on decoded values *)

(** [x is None] *)
Definition is_None (j : json) : bool :=
  match j with
  | JNull => true
  | _ => false
  end.

(** [bool(x)], as used by [if not x]. *)
Definition truthy (j : json) : bool :=
  match j with
  | JNull => false
  | JBool b => b
  | JInt z => negb (z =? 0)
  | JFloat (S754_zero _) => false
  | JFloat _ => true
  | JString s => negb (String.eqb s "")
  | JArray items => match items with [] => false | _ => true end
  | JObject fields => match fields with [] => false | _ => true end
  end.

(** [x == s] for a string [s]: only an equal string compares equal. *)
Definition eq_str (j : json) (s : string) : bool :=
  match j with
  | JString s' => String.eqb s' s
  | _ => false
  end.

(** [x[k]] for a string key [k]. *)
Definition subscript (j : json) (k : string) : outcome json :=
  match j with
  | JObject fields =>
      match Dict.get k fields with
      | Some v => Return v
      | None => Raise (KeyError k)
      end
  | _ => Raise TypeError
  end.

(** [x.get(k, None)] *)
Definition get_or_None (j : json) (k : string) : outcome json :=
  match j with
  | JObject fields =>
      match Dict.get k fields with
      | Some v => Return v
      | None => Return JNull
      end
  | _ => Raise AttributeError
  end.

(** The elements a [for] loop visits: the items of a list, the keys of a
    dict, the characters of a string. *)
Definition iterate (j : json) : outcome (list json) :=
  match j with
  | JArray items => Return items
  | JObject fields => Return (map (fun kv => JString (fst kv)) fields)
  | JString s => Return (map (fun c => JString (String c "")) (list_ascii_of_string s))
  | _ => Raise TypeError
  end.

(** [str.format] of an integer. *)
Definition format_int (z : Z) : string := NilZero.string_of_int (Z.to_int z).

(** ** The HTTP client

    [urllib3.PoolManager] is an external collaborator.  It is modelled as a
    scripted client: the responses it will give, in order, and the requests
    it has received so far.  [None] in the script is a request that raises;
    a client whose script is used up raises as well. *)

Record response : Type := mkResponse {
  status : Z;
  reason : string;
  data : string
}.

Definition headers : Type := list (string * string).

Record client : Type := mkClient {
  script : list (option response);
  requests : list (string * headers)
}.

(** [client.request("GET", url, headers=headers)] *)
Definition request (c : client) (url : string) (h : headers)
  : option response * client :=
  let sent := (requests c ++ [(url, h)])%list in
  match script c with
  | [] => (None, mkClient [] sent)
  | r :: rest => (r, mkClient rest sent)
  end.

(** [{} if access_token is None else {"Authorization": "Bearer ..."}] *)
Definition auth_headers (access_token : option string) : headers :=
  match access_token with
  | None => []
  | Some token => [("Authorization", "Bearer " ++ token)]
  end.

(** ** Shapes of rollout records and pages *)

(** [j] is a dict whose item [k] is [v]. *)
Inductive has_field : json -> string -> json -> Prop :=
| HasField fields k v : Dict.get k fields = Some v -> has_field (JObject fields) k v.

(** The record the scan returns from: status [SUCCESS], a strategy that is
    not [None], and percentages [p] that are not [None]. *)
Inductive successful (rollout p : json) : Prop :=
| Successful t :
    has_field rollout "status" (JString "SUCCESS") ->
    has_field rollout "trafficPercentStrategy" t ->
    has_field t "percentages" p ->
    is_None p = false ->
    successful rollout p.

(** The records the scan steps over: another status (or [None]), or status
    [SUCCESS] with a [None] strategy or [None] percentages. *)
Inductive passed_over (rollout : json) : Prop :=
| OtherStatus s :
    has_field rollout "status" s ->
    eq_str s "SUCCESS" = false ->
    passed_over rollout
| NoStrategy :
    has_field rollout "status" (JString "SUCCESS") ->
    has_field rollout "trafficPercentStrategy" JNull ->
    passed_over rollout
| NoPercentages t :
    has_field rollout "status" (JString "SUCCESS") ->
    has_field rollout "trafficPercentStrategy" t ->
    has_field t "percentages" JNull ->
    passed_over rollout.

Section Program.

(** [json.loads]: [None] stands for the [ValueError] it raises on text
    that is not well-formed JSON. *)
Variable json_loads : string -> option json.

(** How [str.format] renders a decoded value that is not a string. *)
Variable repr : json -> string.

Definition format_value (j : json) : string :=
  match j with
  | JString s => s
  | _ => repr j
  end.

(** *** fetch_latest_rollout *)

(** [SERVICE_MGMT_ROLLOUTS_URL_TEMPLATE.format(service_name, page_token)] *)
Definition rollouts_url (service_name : string) (page_token : json) : string :=
  "https://servicemanagement.googleapis.com/v1/services/" ++ service_name
    ++ "/rollouts?pageToken=" ++ format_value page_token.

Definition rollouts_failed (status_code : Z) (reason url : string) : string :=
  "Fetching rollouts failed (status code " ++ format_int status_code
    ++ ", reason " ++ reason ++ ", url " ++ url ++ ")".

Definition invalid_rollouts (url data : string) : string :=
  "Invalid rollouts response (url " ++ url ++ ", data " ++ data ++ ")".

(** The condition of the [if] inside the [for] loop, with the
    short-circuit of [and]. *)
Definition is_successful (rollout : json) : outcome bool :=
  (s <- subscript rollout "status" ;;
   if is_None s then Return false else
   s' <- subscript rollout "status" ;;
   if negb (eq_str s' "SUCCESS") then Return false else
   t <- subscript rollout "trafficPercentStrategy" ;;
   if is_None t then Return false else
   t' <- subscript rollout "trafficPercentStrategy" ;;
   p <- subscript t' "percentages" ;;
   Return (negb (is_None p)))%py.

(** [rollout["trafficPercentStrategy"]["percentages"]] *)
Definition percentages (rollout : json) : outcome json :=
  (t <- subscript rollout "trafficPercentStrategy" ;;
   subscript t "percentages")%py.

(** The [for] loop: [Some p] when it returns [p], [None] when it falls
    through. *)
Fixpoint first_successful (rollouts : list json) : outcome (option json) :=
  match rollouts with
  | [] => Return None
  | rollout :: rest =>
      (ok <- is_successful rollout ;;
       if ok : bool
       then (p <- percentages rollout ;; Return (Some p))
       else first_successful rest)%py
  end.

(** How one turn of the [while True] loop ends, once the request has
    given a response. *)
Inductive page_step : Type :=
| Returned (percentages : json)
| Failed (e : exn)
| Break
| NextPage (page_token : json).

Definition scan_page (service_mgmt_url : string) (r : response) : page_step :=
  if negb (status r =? 200) then
    Failed (FetchError 1 (rollouts_failed (status r) (reason r) service_mgmt_url))
  else
    match json_loads (data r) with
    | None => Failed ValueError
    | Some rollouts =>
        match subscript rollouts "rollouts" with
        | Raise e => Failed e
        | Return listed =>
            if is_None listed then
              Failed (FetchError 1 (invalid_rollouts service_mgmt_url (data r)))
            else
              match (items <- iterate listed ;; first_successful items)%py with
              | Raise e => Failed e
              | Return (Some p) => Returned p
              | Return None =>
                  match subscript rollouts "nextPageToken" with
                  | Raise e => Failed e
                  | Return token =>
                      if is_None token then Break else NextPage token
                  end
              end
        end
    end.

(** The [while True] loop.  Every turn sends one request, which takes one
    entry of the client's script, so the loop is a recursion on the
    script; [sent] is the client's request log. *)
Fixpoint rollout_loop (service_name : string) (h : headers) (page_token : json)
    (pending : list (option response)) (sent : list (string * headers))
    {struct pending} : outcome json * client :=
  let service_mgmt_url := rollouts_url service_name page_token in
  let sent' := (sent ++ [(service_mgmt_url, h)])%list in
  match pending with
  | [] => (Raise (FetchError 1 "Failed to fetch service config"), mkClient [] sent')
  | None :: rest =>
      (Raise (FetchError 1 "Failed to fetch service config"), mkClient rest sent')
  | Some r :: rest =>
      match scan_page service_mgmt_url r with
      | Returned p => (Return p, mkClient rest sent')
      | Failed e => (Raise e, mkClient rest sent')
      | Break =>
          (Raise (FetchError 1 (rollouts_failed (status r) (reason r) service_mgmt_url)),
           mkClient rest sent')
      | NextPage token => rollout_loop service_name h token rest sent'
      end
  end.

Definition fetch_latest_rollout (service_name : string)
    (access_token : option string) (c : client) : outcome json * client :=
  rollout_loop service_name (auth_headers access_token) (JString "")
    (script c) (requests c).

(** *** fetch_service_json *)

Definition config_failed (status_code : Z) (reason url : string) : string :=
  "Fetching service config failed (status code " ++ format_int status_code
    ++ ", reason " ++ reason ++ ", url " ++ url ++ ")".

Definition fetch_service_json (service_mgmt_url : string)
    (access_token : option string) (c : client) : outcome json * client :=
  let (got, c') := request c service_mgmt_url (auth_headers access_token) in
  match got with
  | None => (Raise (FetchError 1 "Failed to fetch service config"), c')
  | Some r =>
      if negb (status r =? 200) then
        (Raise (FetchError 1 (config_failed (status r) (reason r) service_mgmt_url)), c')
      else
        match json_loads (data r) with
        | None => (Raise ValueError, c')
        | Some service_config => (Return service_config, c')
        end
  end.

(** *** validate_service_config

    The function returns nothing and updates [service_config] in place.
    A run is described by how it ends, the document afterwards, and the
    warnings it logged. *)

Record validation : Type := mkValidation {
  ended : outcome unit;
  document : json;
  warnings : list string
}.

Definition sandbox_environment : string :=
  "endpoints-servicecontrol.sandbox.googleapis.com".

Definition production_environment : string := "servicecontrol.googleapis.com".

(** [x[k] = v] *)
Definition setitem (j : json) (k : string) (v : json) : outcome json :=
  match j with
  | JObject fields => Return (JObject (Dict.set k v fields))
  | _ => Raise TypeError
  end.

(** [service_config["control"]["environment"] = v]: the dict found under
    ["control"] is updated; it stays where it is in [service_config]. *)
Definition set_control_environment (service_config v : json) : outcome json :=
  (control <- subscript service_config "control" ;;
   control' <- setitem control "environment" v ;;
   setitem service_config "control" control')%py.

Definition validate_service_config (service_config : json)
    (expected_service_name expected_service_version : string) : validation :=
  let raise e := mkValidation (Raise e) service_config [] in
  match get_or_None service_config "name" with
  | Raise e => raise e
  | Return service_name =>
  if negb (truthy service_name) then
    raise (FetchError 2 "No service name in the service config")
  else if negb (eq_str service_name expected_service_name) then
    raise (FetchError 2 ("Unexpected service name in service config: "
                           ++ format_value service_name))
  else
  match get_or_None service_config "id" with
  | Raise e => raise e
  | Return service_version =>
  if negb (truthy service_version) then
    raise (FetchError 2 "No service config ID in the service config")
  else if negb (eq_str service_version expected_service_version) then
    raise (FetchError 2 ("Unexpected service config ID in service config: "
                           ++ format_value service_version))
  else
  match get_or_None service_config "control" with
  | Raise e => raise e
  | Return control =>
  if negb (truthy control) then
    raise (FetchError 2 "No control section in the service config")
  else
  match get_or_None control "environment" with
  | Raise e => raise e
  | Return environment =>
  if negb (truthy environment) then
    raise (FetchError 2 "Missing control environment")
  else if eq_str environment sandbox_environment then
    match set_control_environment service_config (JString production_environment) with
    | Raise e => raise e
    | Return service_config' =>
        mkValidation (Return tt) service_config'
          ["Replacing sandbox control environment in the service config"]
    end
  else
    mkValidation (Return tt) service_config []
  end end end end.

(** *** Shapes of pages, and the validator's reasons *)

(** A response with status 200 whose body decodes to a dict with the
    list [rollouts] under ["rollouts"]. *)
Definition lists (r : response) (rollouts : list json) : Prop :=
  status r = 200 /\
  exists body,
    json_loads (data r) = Some body /\
    has_field body "rollouts" (JArray rollouts).

(** The same, with [token] under ["nextPageToken"]. *)
Definition page_of (r : response) (rollouts : list json) (token : json) : Prop :=
  status r = 200 /\
  exists body,
    json_loads (data r) = Some body /\
    has_field body "rollouts" (JArray rollouts) /\
    has_field body "nextPageToken" token.

(** A page the loop goes past: nothing to return, and a token that is
    not [None]. *)
Definition goes_on (page : response * json) : Prop :=
  exists rollouts,
    page_of (fst page) rollouts (snd page) /\
    Forall passed_over rollouts /\
    is_None (snd page) = false.

(** The URLs of the requests for pages with the given tokens, the first
    being asked for with [token]. *)
Fixpoint page_urls (service_name : string) (token : json) (tokens : list json)
  : list string :=
  match tokens with
  | [] => []
  | next :: more =>
      rollouts_url service_name token :: page_urls service_name next more
  end.

Definition log (h : headers) (urls : list string) : list (string * headers) :=
  map (fun url => (url, h)) urls.

Definition no_name : string := "No service name in the service config".
Definition unexpected_name (name : json) : string :=
  "Unexpected service name in service config: " ++ format_value name.
Definition no_id : string := "No service config ID in the service config".
Definition unexpected_id (id : json) : string :=
  "Unexpected service config ID in service config: " ++ format_value id.
Definition no_control : string := "No control section in the service config".
Definition no_environment : string := "Missing control environment".

End Program.

(** [service_config["control"]["environment"]] *)
Definition control_environment (service_config : json) : outcome json :=
  (control <- subscript service_config "control" ;;
   subscript control "environment")%py.

(** What [d.get(k, None)] gives for a dict with the items [fields]. *)
Definition item (fields : list (string * json)) (k : string) : json :=
  match Dict.get k fields with
  | Some v => v
  | None => JNull
  end.

(** Two dicts with the same keys in the same places, and the same values
    everywhere but under [k]. *)
Definition same_but (k : string) (d d' : list (string * json)) : Prop :=
  Forall2 (fun a b => fst a = fst b /\ (fst a <> k -> snd a = snd b)) d d'.

(** ** Sample data *)

Module Sample.

(** A decoder given by a table of the bodies it knows; any other text is
    malformed. *)
Fixpoint decode (table : list (string * json)) (text : string) : option json :=
  match table with
  | [] => None
  | (known, value) :: more =>
      if String.eqb text known then Some value else decode more text
  end.

(** A rendering of values that are not strings. *)
Definition plain (j : json) : string := "<value>".

Definition rollout (id status : string) (strategy : json) : json :=
  JObject [("rolloutId", JString id); ("status", JString status);
           ("trafficPercentStrategy", strategy)].

Definition split (shares : list (string * json)) : json :=
  JObject [("percentages", JObject shares)].

Definition page (rollouts : list json) (token : json) : json :=
  JObject [("rollouts", JArray rollouts); ("nextPageToken", token)].

Definition ok (body : string) : response := mkResponse 200 "OK" body.

Definition failed : json := rollout "r5" "FAILED" JNull.
Definition cancelled : json := rollout "r4" "CANCELLED" (split [("v3", JInt 100)]).
Definition removed : json := rollout "r3" "SUCCESS" JNull.
Definition unset : json := rollout "r3" "SUCCESS" (JObject [("percentages", JNull)]).
Definition drained : json := rollout "r3" "SUCCESS" (split []).
Definition current : json := rollout "r2" "SUCCESS" (split [("v2", JInt 100)]).
Definition older : json := rollout "r1" "SUCCESS" (split [("v1", JInt 100)]).

(** Three pages: an empty one, one with the current rollout between
    others, and one more. *)
Definition feed : string -> option json :=
  decode [("page-1", page [] (JString "t1"));
          ("page-2", page [failed; cancelled; removed; current; older] (JString "t2"));
          ("page-3", page [older] JNull)].

Definition feed_client : client :=
  mkClient [Some (ok "page-1"); Some (ok "page-2"); Some (ok "page-3")] [].

(** Two pages without a record to return. *)
Definition stale : string -> option json :=
  decode [("page-1", page [failed; removed] (JString "t1"));
          ("page-2", page [unset; cancelled] JNull)].

Definition stale_client : client :=
  mkClient [Some (ok "page-1"); Some (ok "page-2")] [].

(** One page where a SUCCESS rollout with empty percentages comes before
    the current one. *)
Definition drained_first : string -> option json :=
  decode [("page-1", page [drained; current] JNull)].

(** One page whose only rollout is SUCCESS with empty percentages. *)
Definition drained_only : string -> option json :=
  decode [("page-1", page [drained] JNull)].

Definition one_page : client := mkClient [Some (ok "page-1")] [].

(** Two pages: a SUCCESS rollout with empty percentages on the first, the
    current rollout on the second. *)
Definition drained_page : string -> option json :=
  decode [("page-1", page [drained] (JString "t1"));
          ("page-2", page [current] JNull)].

Definition two_pages : client :=
  mkClient [Some (ok "page-1"); Some (ok "page-2")] [].

(** Bodies without the keys: no ["nextPageToken"], no ["rollouts"]. *)
Definition bare : string -> option json :=
  decode [("page-1", JObject [("rollouts", JArray [failed])]);
          ("page-2", JObject [])].

Definition sandbox_config : json :=
  JObject [("name", JString "a"); ("id", JString "v1");
           ("title", JString "A service");
           ("control",
            JObject [("environment",
                      JString "endpoints-servicecontrol.sandbox.googleapis.com")])].

Definition empty_control : json :=
  JObject [("name", JString "a"); ("id", JString "v1"); ("control", JObject [])].

(** The one body the config endpoint is known to give. *)
Definition configs : string -> option json := decode [("config-v1", sandbox_config)].

Definition config_url : string :=
  "https://servicemanagement.googleapis.com/v1/services/svc/configs/v1".

End Sample.

(** The spec's winning record: status SUCCESS and a TrafficPercentStrategy,
    the mapping from version to percent, that is not empty. *)
Definition winning (rollout : json) : bool :=
  match subscript rollout "status", percentages rollout with
  | Return s, Return (JObject (_ :: _)) => eq_str s "SUCCESS"
  | _, _ => false
  end.

(** ** The metadata server

    [fetch_service_name], [fetch_service_config_id] and [fetch_access_token]
    ask the instance metadata server, each through a client of its own. *)

Definition _METADATA_PATH : string := "/computeMetadata/v1/instance".
Definition _METADATA_SERVICE_NAME : string := "endpoints-service-name".
Definition _METADATA_SERVICE_CONFIG_ID : string := "endpoints-service-config-id".

(** [{"Metadata-Flavor": "Google"}] *)
Definition metadata_headers : headers := [("Metadata-Flavor", "Google")].

(** A run of one of the two attribute fetchers: how it ended, the client
    afterwards, and the lines given to [logging.info]. *)
Record fetched : Type := mkFetched {
  answer : outcome string;
  network : client;
  logged : list string
}.

Definition service_name_url (metadata : string) : string :=
  metadata ++ _METADATA_PATH ++ "/attributes/" ++ _METADATA_SERVICE_NAME.

Definition fetch_service_name (metadata : string) (c : client) : fetched :=
  let url := service_name_url metadata in
  let (got, c') := request c url metadata_headers in
  match got with
  | None =>
      mkFetched
        (Raise (FetchError 1
                  ("Failed to fetch service name from the metadata server: " ++ url)))
        c' []
  | Some response =>
      let status_code := status response in
      if negb (status_code =? 200) then
        mkFetched
          (Raise (FetchError 1
                    ("Fetching service name failed (url " ++ url
                       ++ ", status code " ++ format_int status_code ++ ")")))
          c' []
      else
        let name := data response in
        mkFetched (Return name) c' ["Service name: " ++ name]
  end.

(** What a [try] block hands to a bare [except:]: its value, or whatever
    was raised in it, an exception of this program or one of the client's
    own ([None]). *)
Inductive tried (A : Type) : Type :=
| Done (a : A)
| Caught (e : option exn).

Arguments Done {A} a.
Arguments Caught {A} e.

Definition config_id_url (metadata : string) : string :=
  metadata ++ _METADATA_PATH ++ "/attributes/" ++ _METADATA_SERVICE_CONFIG_ID.

Definition service_version_url (metadata : string) : string :=
  metadata ++ _METADATA_PATH ++ "/attributes/endpoints-service-version".

Definition config_id_failed (url : string) (status_code : Z) : string :=
  "Fetching service config ID failed (url " ++ url
    ++ ", status code " ++ format_int status_code ++ ")".

(** The outer [try] block of [fetch_service_config_id]: the request, and
    the FetchError raised inside the block on a status other than 200. *)
Definition first_attempt (metadata : string) (c : client) : tried response * client :=
  let url := config_id_url metadata in
  let (got, c') := request c url metadata_headers in
  match got with
  | None => (Caught None, c')
  | Some response =>
      if negb (status response =? 200) then
        (Caught (Some (FetchError 1 (config_id_failed url (status response)))), c')
      else (Done response, c')
  end.

Definition fetch_service_config_id (metadata : string) (c : client) : fetched :=
  let finish (response : response) (c' : client) :=
    let version := data response in
    mkFetched (Return version) c' ["Service config ID:" ++ version] in
  match first_attempt metadata c with
  | (Done response, c1) => finish response c1
  | (Caught _, c1) =>
      let url := service_version_url metadata in
      let (got, c2) := request c1 url metadata_headers in
      match got with
      | None =>
          mkFetched
            (Raise (FetchError 1
                      ("Failed to fetch service config ID from the metadata server: "
                         ++ url)))
            c2 []
      | Some response =>
          if negb (status response =? 200) then
            mkFetched (Raise (FetchError 1 (config_id_failed url (status response))))
              c2 []
          else finish response c2
      end
  end.

Definition access_token_url (metadata : string) : string :=
  metadata ++ _METADATA_PATH ++ "/service-accounts/default/token".

Section Token.

(** [json.loads], as in [fetch_latest_rollout]. *)
Variable json_loads : string -> option json.

Definition fetch_access_token (metadata : string) (c : client)
  : outcome json * client :=
  let url := access_token_url metadata in
  let (got, c') := request c url metadata_headers in
  match got with
  | None =>
      (Raise (FetchError 1
                ("Failed to fetch access token from the metadata server: " ++ url)),
       c')
  | Some response =>
      let status_code := status response in
      if negb (status_code =? 200) then
        (Raise (FetchError 1
                  ("Fetching access token failed (url " ++ url
                     ++ ", status code " ++ format_int status_code ++ ")")),
         c')
      else
        match json_loads (data response) with
        | None => (Raise ValueError, c')
        | Some decoded => (subscript decoded "access_token", c')
        end
  end.

End Token.

(** ** Records the scan cannot read *)

(** The records on which the condition of the scan raises, with what it
    raises: a record that is no dict, one without a status, and one with
    status SUCCESS whose strategy is missing, is no dict, or has no
    percentages. *)
Inductive unreadable : json -> exn -> Prop :=
| NotADict rollout :
    (forall fields, rollout <> JObject fields) ->
    unreadable rollout TypeError
| StatusMissing fields :
    Dict.get "status" fields = None ->
    unreadable (JObject fields) (KeyError "status")
| StrategyMissing fields :
    Dict.get "status" fields = Some (JString "SUCCESS") ->
    Dict.get "trafficPercentStrategy" fields = None ->
    unreadable (JObject fields) (KeyError "trafficPercentStrategy")
| StrategyNotADict fields t :
    Dict.get "status" fields = Some (JString "SUCCESS") ->
    Dict.get "trafficPercentStrategy" fields = Some t ->
    is_None t = false ->
    (forall strategy, t <> JObject strategy) ->
    unreadable (JObject fields) TypeError
| PercentagesMissing fields strategy :
    Dict.get "status" fields = Some (JString "SUCCESS") ->
    Dict.get "trafficPercentStrategy" fields = Some (JObject strategy) ->
    Dict.get "percentages" strategy = None ->
    unreadable (JObject fields) (KeyError "percentages").

(** A script entry that answers with status 200. *)
Definition answers (entry : option response) : bool :=
  match entry with
  | Some r => status r =? 200
  | None => false
  end.

(** ** More sample data *)

Module Metadata.

Definition server : string := "http://metadata.google.internal".

Definition not_found : response := mkResponse 404 "Not Found" "".

(** A page whose second record has no status, before the current one. *)
Definition torn : string -> option json :=
  Sample.decode
    [("page-1",
      Sample.page [Sample.failed; JObject [("rolloutId", JString "r9")]; Sample.current]
        JNull)].

(** A first page that goes on, then nothing the selector can use. *)
Definition cut_off : string -> option json :=
  Sample.decode [("page-1", Sample.page [Sample.failed] (JString "t1"))].

(** A body whose rollouts are a number. *)
Definition counted : string -> option json :=
  Sample.decode [("page-1", JObject [("rollouts", JInt 3); ("nextPageToken", JNull)])].

(** A body whose rollouts are an empty dict. *)
Definition hollow : string -> option json :=
  Sample.decode [("page-1", JObject [("rollouts", JObject []); ("nextPageToken", JNull)])].

(** Token bodies. *)
Definition tokens : string -> option json :=
  Sample.decode [("token", JObject [("access_token", JString "ya29.token");
                                    ("expires_in", JInt 3599)])].

Definition production_config : json :=
  JObject [("name", JString "a"); ("id", JString "v1");
           ("control", JObject [("environment", JString "servicecontrol.googleapis.com")])].

Definition stray_control : json :=
  JObject [("name", JString "a"); ("id", JString "v1");
           ("control", JString "servicecontrol.googleapis.com")].

End Metadata.

(** ** Proof steps *)

Ltac enter_loop := unfold fetch_latest_rollout.
Ltac loop_turn := cbn [rollout_loop].
Ltac open_page := unfold scan_page.
Ltac run_validator := unfold validate_service_config.
Ltac store_environment := unfold set_control_environment, setitem.
Ltac fetch_config := unfold fetch_service_json, request.
Ltac fetch_token := unfold fetch_access_token, request.
Ltac fetch_name := unfold fetch_service_name, request.
Ltac fetch_config_id := unfold fetch_service_config_id, first_attempt, request.
Ltac field := constructor; reflexivity.
Ltac other_status := eapply OtherStatus; [field | reflexivity].
Ltac no_strategy := apply NoStrategy; field.
Ltac no_percentages := eapply NoPercentages; field.
Ltac returned_from := eapply Successful; [field | field | field | reflexivity].
Ltac is_page := split; [reflexivity | eexists; split; [reflexivity | split; field]].
Ltac is_list := split; [reflexivity | eexists; split; [reflexivity | field]].

(** * Properties *)

(** ** Dicts *)

Module DictFacts.

Lemma get_set_same k v d : Dict.get k (Dict.set k v d) = Some v.
Proof.
  induction d as [|[k' v'] d IH]; simpl.
  - now rewrite String.eqb_refl.
  - destruct (String.eqb k k') eqn:E; simpl; rewrite E; auto.
Qed.

Lemma get_set_other k k' v d :
  k' <> k -> Dict.get k' (Dict.set k v d) = Dict.get k' d.
Proof.
  intros Hne. induction d as [|[k0 v0] d IH]; simpl.
  - destruct (String.eqb k' k) eqn:E; auto.
    apply String.eqb_eq in E. contradiction.
  - destruct (String.eqb k k0) eqn:E; simpl.
    + apply String.eqb_eq in E. subst k0.
      destruct (String.eqb k' k) eqn:E'; auto.
      apply String.eqb_eq in E'. contradiction.
    + now rewrite IH.
Qed.

End DictFacts.

Lemma last_cons {A : Type} (l : list A) (a d : A) : last (a :: l) d = last l a.
Proof.
  revert a d. induction l as [|b l IH]; intros a d; [reflexivity|].
  change (last (a :: b :: l) d) with (last (b :: l) d).
  rewrite IH. symmetry. apply IH.
Qed.

Lemma eq_str_true j s : eq_str j s = true -> j = JString s.
Proof.
  destruct j; simpl; try discriminate.
  intros H. apply String.eqb_eq in H. now subst.
Qed.

Lemma subscript_field j k v : has_field j k v -> subscript j k = Return v.
Proof. intros [fields k' v' H]. simpl. now rewrite H. Qed.

Section SelectorFacts.

Variable json_loads : string -> option json.
Variable repr : json -> string.

Abbreviation scan_page := (scan_page json_loads).
Abbreviation rollout_loop := (rollout_loop json_loads repr).
Abbreviation fetch_latest_rollout := (fetch_latest_rollout json_loads repr).
Abbreviation rollouts_url := (rollouts_url repr).
Abbreviation page_of := (page_of json_loads).
Abbreviation lists := (lists json_loads).
Abbreviation goes_on := (goes_on json_loads).
Abbreviation page_urls := (page_urls repr).

Lemma is_successful_true rollout p :
  successful rollout p ->
  is_successful rollout = Return true /\ percentages rollout = Return p.
Proof.
  intros [t Hs Ht Hp Hn]. unfold is_successful, percentages.
  rewrite (subscript_field _ _ _ Hs), (subscript_field _ _ _ Ht). simpl.
  inversion Hp; subst. simpl. rewrite H. simpl. rewrite Hn. auto.
Qed.

Lemma is_successful_false rollout :
  passed_over rollout -> is_successful rollout = Return false.
Proof.
  intros [s Hs Hne | Hs Ht | t Hs Ht Hp]; unfold is_successful;
    rewrite (subscript_field _ _ _ Hs); simpl.
  - destruct (is_None s); auto. rewrite Hne. auto.
  - rewrite (subscript_field _ _ _ Ht). auto.
  - rewrite (subscript_field _ _ _ Ht). simpl.
    inversion Hp; subst. simpl. rewrite H. auto.
Qed.

(** [successful] and [passed_over] are exactly the records on which the
    condition is true and false; on any other record it raises. *)
Lemma is_successful_cases rollout :
  match is_successful rollout with
  | Return true => exists p, successful rollout p
  | Return false => passed_over rollout
  | Raise _ => (forall p, ~ successful rollout p) /\ ~ passed_over rollout
  end.
Proof.
  destruct (is_successful rollout) as [[|]|e] eqn:E.
  - unfold is_successful in E.
    destruct rollout as [| | | | | |fields]; try discriminate. simpl in E.
    destruct (Dict.get "status" fields) as [s|] eqn:Es; try discriminate.
    simpl in E. destruct (is_None s); try discriminate.
    destruct (eq_str s "SUCCESS") eqn:Eeq; try discriminate. simpl in E.
    apply eq_str_true in Eeq. subst s.
    destruct (Dict.get "trafficPercentStrategy" fields) as [t|] eqn:Et;
      try discriminate.
    simpl in E. destruct (is_None t); try discriminate.
    destruct t as [| | | | | |strategy]; try discriminate. simpl in E.
    destruct (Dict.get "percentages" strategy) as [p|] eqn:Ep; try discriminate.
    simpl in E. exists p. apply Successful with (JObject strategy).
    + now constructor.
    + now constructor.
    + now constructor.
    + destruct (is_None p); [discriminate | reflexivity].
  - unfold is_successful in E.
    destruct rollout as [| | | | | |fields]; try discriminate. simpl in E.
    destruct (Dict.get "status" fields) as [s|] eqn:Es; try discriminate.
    simpl in E. destruct (is_None s) eqn:En.
    + apply OtherStatus with s; [now constructor|]. now destruct s.
    + destruct (eq_str s "SUCCESS") eqn:Eeq; simpl in E.
      * apply eq_str_true in Eeq. subst s.
        destruct (Dict.get "trafficPercentStrategy" fields) as [t|] eqn:Et;
          try discriminate.
        simpl in E. destruct (is_None t) eqn:Ent.
        -- destruct t; try discriminate. apply NoStrategy; now constructor.
        -- destruct t as [| | | | | |strategy]; try discriminate. simpl in E.
           destruct (Dict.get "percentages" strategy) as [p|] eqn:Ep;
             try discriminate.
           simpl in E. destruct p; try discriminate.
           apply NoPercentages with (JObject strategy); now constructor.
      * apply OtherStatus with s; [now constructor | assumption].
  - split.
    + intros p H. destruct (is_successful_true _ _ H) as [H' _]. congruence.
    + intros H. rewrite (is_successful_false _ H) in E. discriminate.
Qed.

Lemma first_successful_none rollouts :
  Forall passed_over rollouts -> first_successful rollouts = Return None.
Proof.
  induction 1 as [|r rs Hr _ IH]; simpl; auto.
  now rewrite (is_successful_false _ Hr).
Qed.

Lemma first_successful_first before w after p :
  Forall passed_over before ->
  successful w p ->
  first_successful (before ++ w :: after) = Return (Some p).
Proof.
  intros Hb Hw. induction Hb as [|r rs Hr _ IH]; simpl.
  - destruct (is_successful_true _ _ Hw) as [-> ->]. auto.
  - now rewrite (is_successful_false _ Hr).
Qed.

Lemma scan_page_found url r before w after p :
  lists r (before ++ w :: after) ->
  Forall passed_over before ->
  successful w p ->
  scan_page url r = Returned p.
Proof.
  intros [H200 (body & Hb & Hr)] Hbefore Hw. unfold scan_page.
  rewrite H200, Hb, (subscript_field _ _ _ Hr). simpl.
  now rewrite (first_successful_first _ _ _ _ Hbefore Hw).
Qed.

Lemma scan_page_nothing url r rollouts token :
  page_of r rollouts token ->
  Forall passed_over rollouts ->
  scan_page url r = if is_None token then Break else NextPage token.
Proof.
  intros [H200 (body & Hb & Hr & Ht)] Hall. unfold scan_page.
  rewrite H200, Hb, (subscript_field _ _ _ Hr). simpl.
  now rewrite (first_successful_none _ Hall), (subscript_field _ _ _ Ht).
Qed.

(** One turn of the loop is one [client.request]. *)
Lemma rollout_loop_turn service_name h token pending sent :
  rollout_loop service_name h token pending sent
  = let url := rollouts_url service_name token in
    let (got, c') := request (mkClient pending sent) url h in
    match got with
    | None => (Raise (FetchError 1 "Failed to fetch service config"), c')
    | Some r =>
        match scan_page url r with
        | Returned p => (Return p, c')
        | Failed e => (Raise e, c')
        | Break =>
            (Raise (FetchError 1 (rollouts_failed (status r) (reason r) url)), c')
        | NextPage next =>
            rollout_loop service_name h next (script c') (requests c')
        end
    end.
Proof. destruct pending as [|[r|] rest]; reflexivity. Qed.

(** The loop goes past every page that [goes_on], asking for each with
    the token of the one before. *)
Lemma rollout_loop_goes_on service_name h pages :
  Forall goes_on pages ->
  forall token rest sent,
    rollout_loop service_name h token (map Some (map fst pages) ++ rest)%list sent
    = rollout_loop service_name h (last (map snd pages) token) rest
        (sent ++ log h (page_urls service_name token (map snd pages)))%list.
Proof.
  induction 1 as [|[r t] pages (rollouts & Hp & Hall & Hn) _ IH]; intros token rest sent.
  - simpl. now rewrite app_nil_r.
  - cbn [map fst snd app rollout_loop] in *.
    rewrite (scan_page_nothing _ _ _ _ Hp Hall), Hn, IH.
    cbn [page_urls log map]. rewrite <- app_assoc. cbn [app].
    f_equal. symmetry. apply last_cons.
Qed.

Lemma length_page_urls service_name token tokens :
  length (page_urls service_name token tokens) = length tokens.
Proof.
  revert token. induction tokens as [|t ts IH]; intros token; simpl; auto.
Qed.

(** Where [fetch_latest_rollout] stands after the pages it goes past. *)
Lemma fetch_latest_rollout_goes_on service_name access_token c pages rest :
  script c = (map Some (map fst pages) ++ rest)%list ->
  Forall goes_on pages ->
  fetch_latest_rollout service_name access_token c
  = rollout_loop service_name (auth_headers access_token)
      (last (map snd pages) (JString "")) rest
      (requests c ++ log (auth_headers access_token)
         (page_urls service_name (JString "") (map snd pages)))%list.
Proof.
  intros Hs Hall. enter_loop. rewrite Hs.
  now apply rollout_loop_goes_on.
Qed.

(** *** The selector *)

(** C1 (amended): when the pages before page N are gone past, and on
    page N the records before [w] are stepped over and [w] has status
    SUCCESS with a strategy and percentages that are not None, the
    selector returns the percentages of [w]: the first such record in scan
    order, whatever comes after it.  The percentages need not be
    non-empty. *)
Theorem first_successful_rollout_is_returned
    service_name access_token c pages r before w after p rest :
  script c = (map Some (map fst pages) ++ Some r :: rest)%list ->
  Forall goes_on pages ->
  lists r (before ++ w :: after) ->
  Forall passed_over before ->
  successful w p ->
  fst (fetch_latest_rollout service_name access_token c) = Return p.
Proof.
  intros Hs Hpages Hr Hbefore Hw.
  rewrite (fetch_latest_rollout_goes_on _ _ _ _ _ Hs Hpages).
  loop_turn.
  now rewrite (scan_page_found _ _ _ _ _ _ Hr Hbefore Hw).
Qed.

(** C2 (amended): when the records of every page carry the fields the scan
    reads and none of them has status SUCCESS with a strategy and
    percentages that are not None (each record is stepped over), and the
    last page's continuation token is None, the selector stops after that
    page and raises FetchError with code 1; the message is the
    rollouts-failed message with the status (200), the reason and the URL
    of the last request. *)
Theorem exhausted_pages_raise_FetchError
    service_name access_token c pages r rollouts rest :
  script c = (map Some (map fst pages) ++ Some r :: rest)%list ->
  Forall goes_on pages ->
  page_of r rollouts JNull ->
  Forall passed_over rollouts ->
  let url := rollouts_url service_name (last (map snd pages) (JString "")) in
  let h := auth_headers access_token in
  fetch_latest_rollout service_name access_token c
  = (Raise (FetchError 1 (rollouts_failed 200 (reason r) url)),
     mkClient rest
       ((requests c ++ log h (page_urls service_name (JString "") (map snd pages)))
          ++ [(url, h)])%list).
Proof.
  intros Hs Hpages Hr Hall url h.
  rewrite (fetch_latest_rollout_goes_on _ _ _ _ _ Hs Hpages).
  loop_turn.
  rewrite (scan_page_nothing _ _ _ _ Hr Hall). cbn [is_None].
  destruct Hr as [-> _]. reflexivity.
Qed.

(** A continuation token that is None ends the loop. *)
Lemma null_token_breaks url r rollouts :
  page_of r rollouts JNull ->
  Forall passed_over rollouts ->
  scan_page url r = Break.
Proof. intros Hr Hall. now rewrite (scan_page_nothing _ _ _ _ Hr Hall). Qed.

(** C5: on a page with nothing to return whose body has no
    ["nextPageToken"] key at all, the selector does not stop the loop as
    it does for None: it raises KeyError. *)
Theorem absent_token_raises_KeyError
    service_name access_token c pages r body rollouts rest :
  script c = (map Some (map fst pages) ++ Some r :: rest)%list ->
  Forall goes_on pages ->
  status r = 200 ->
  json_loads (data r) = Some (JObject body) ->
  Dict.get "rollouts" body = Some (JArray rollouts) ->
  Forall passed_over rollouts ->
  Dict.get "nextPageToken" body = None ->
  fst (fetch_latest_rollout service_name access_token c)
  = Raise (KeyError "nextPageToken").
Proof.
  intros Hs Hpages H200 Hbody Hr Hall Habsent.
  rewrite (fetch_latest_rollout_goes_on _ _ _ _ _ Hs Hpages).
  loop_turn. open_page.
  rewrite H200, Hbody. cbn. rewrite Hr. cbn.
  rewrite (first_successful_none _ Hall), Habsent. reflexivity.
Qed.

(** A rollout list that is None is an invalid response: FetchError with
    code 1, naming the URL and the data. *)
Lemma null_rollouts_raise_FetchError url r body :
  status r = 200 ->
  json_loads (data r) = Some body ->
  has_field body "rollouts" JNull ->
  scan_page url r = Failed (FetchError 1 (invalid_rollouts url (data r))).
Proof.
  intros H200 Hbody Hnull. open_page.
  now rewrite H200, Hbody, (subscript_field _ _ _ Hnull).
Qed.

(** C6: a 200 response whose body is a dict with no ["rollouts"] key
    makes the selector raise KeyError, not FetchError. *)
Theorem absent_rollouts_raise_KeyError
    service_name access_token c r body rest :
  script c = Some r :: rest ->
  status r = 200 ->
  json_loads (data r) = Some (JObject body) ->
  Dict.get "rollouts" body = None ->
  fst (fetch_latest_rollout service_name access_token c)
  = Raise (KeyError "rollouts").
Proof.
  intros Hs H200 Hbody Habsent. enter_loop.
  rewrite Hs. loop_turn. open_page.
  rewrite H200, Hbody. cbn. rewrite Habsent. reflexivity.
Qed.

(** C8 (amended): with the first record to return (status SUCCESS, strategy
    and percentages not None) on page N, or with no such record on any of N
    pages the last of which has a None token, the
    selector sends exactly N requests, each asking with the token of the
    page before, and leaves the rest of the script untouched; and a page
    with an empty record list and a token that is not None makes the loop
    ask for the next page with that token. *)
Theorem requests_exactly_the_pages_needed
    service_name access_token c pages r rest :
  script c = (map Some (map fst pages) ++ Some r :: rest)%list ->
  Forall goes_on pages ->
  (exists before w after p,
      lists r (before ++ w :: after) /\
      Forall passed_over before /\ successful w p)
  \/ (exists rollouts, page_of r rollouts JNull /\ Forall passed_over rollouts) ->
  let h := auth_headers access_token in
  let c' := snd (fetch_latest_rollout service_name access_token c) in
  script c' = rest /\
  requests c'
  = ((requests c ++ log h (page_urls service_name (JString "") (map snd pages)))
       ++ [(rollouts_url service_name (last (map snd pages) (JString "")), h)])%list /\
  length (requests c') = (length (requests c) + (length pages + 1))%nat /\
  (forall r0 t asked more sent,
      page_of r0 [] t -> is_None t = false ->
      rollout_loop service_name h asked (Some r0 :: more) sent
      = rollout_loop service_name h t more
          (sent ++ [(rollouts_url service_name asked, h)])%list).
Proof.
  intros Hs Hpages Hcase h c'.
  assert (Hc' : c' = mkClient rest
            ((requests c ++ log h (page_urls service_name (JString "") (map snd pages)))
               ++ [(rollouts_url service_name (last (map snd pages) (JString "")), h)])%list).
  { subst c'. rewrite (fetch_latest_rollout_goes_on _ _ _ _ _ Hs Hpages).
    loop_turn. fold h.
    destruct Hcase as [(before & w & after & p & Hr & Hb & Hw)
                      | (rollouts & Hr & Hall)].
    - now rewrite (scan_page_found _ _ _ _ _ _ Hr Hb Hw).
    - now rewrite (scan_page_nothing _ _ _ _ Hr Hall). }
  rewrite Hc'. cbn [script requests]. repeat split.
  - unfold log. rewrite !length_app, length_map, length_page_urls, length_map.
    cbn [length]. lia.
  - intros r0 t asked more sent Hr0 Ht. loop_turn.
    now rewrite (scan_page_nothing _ _ _ _ Hr0 (Forall_nil _)), Ht.
Qed.

End SelectorFacts.

(** ** The validator *)

Lemma same_but_refl k d : same_but k d d.
Proof. induction d; constructor; auto. Qed.

Lemma same_but_keys k d d' : same_but k d d' -> Dict.keys d' = Dict.keys d.
Proof.
  unfold Dict.keys. induction 1 as [|a b d d' [Hk _] _ IH]; simpl; congruence.
Qed.

Lemma same_but_set k v d x :
  Dict.get k d = Some x -> same_but k d (Dict.set k v d).
Proof.
  induction d as [|[k' v'] d IH]; simpl; [discriminate|].
  destruct (String.eqb k k') eqn:E; intros H.
  - constructor; [|apply same_but_refl]. simpl. split; auto.
    apply String.eqb_eq in E. congruence.
  - constructor; [simpl; auto | now apply IH].
Qed.

Lemma get_or_None_item fields k : get_or_None (JObject fields) k = Return (item fields k).
Proof. unfold item. simpl. now destruct (Dict.get k fields). Qed.

Lemma truthy_item fields k :
  truthy (item fields k) = true ->
  exists v, Dict.get k fields = Some v /\ item fields k = v.
Proof.
  unfold item. destruct (Dict.get k fields) as [v|]; [eauto | discriminate].
Qed.

Lemma set_not_empty k v d : truthy (JObject (Dict.set k v d)) = true.
Proof.
  destruct d as [|[k' v'] d]; simpl; auto. now destruct (String.eqb k k').
Qed.

Lemma item_set_same k v d : item (Dict.set k v d) k = v.
Proof. unfold item. now rewrite DictFacts.get_set_same. Qed.

Lemma item_set_other k k' v d : k' <> k -> item (Dict.set k v d) k' = item d k'.
Proof. intros H. unfold item. now rewrite DictFacts.get_set_other. Qed.

Section ValidatorFacts.

Variable repr : json -> string.

Abbreviation validate_service_config := (validate_service_config repr).
Abbreviation format_value := (format_value repr).
Abbreviation unexpected_name := (unexpected_name repr).
Abbreviation unexpected_id := (unexpected_id repr).

(** The sandbox rewrite on a document whose control section is a dict. *)
Lemma set_control_environment_dict fields section v :
  Dict.get "control" fields = Some (JObject section) ->
  set_control_environment (JObject fields) v
  = Return (JObject (Dict.set "control"
                       (JObject (Dict.set "environment" v section)) fields)).
Proof. intros H. store_environment. simpl. now rewrite H. Qed.

(** The run of the validator on a dict, check by check. *)
Lemma validate_dict fields expected_name expected_version :
  validate_service_config (JObject fields) expected_name expected_version
  = let raise e := mkValidation (Raise e) (JObject fields) [] in
    let name := item fields "name" in
    let id := item fields "id" in
    let control := item fields "control" in
    if negb (truthy name) then raise (FetchError 2 no_name)
    else if negb (eq_str name expected_name) then
      raise (FetchError 2 (unexpected_name name))
    else if negb (truthy id) then raise (FetchError 2 no_id)
    else if negb (eq_str id expected_version) then
      raise (FetchError 2 (unexpected_id id))
    else if negb (truthy control) then raise (FetchError 2 no_control)
    else
      match control with
      | JObject section =>
          let environment := item section "environment" in
          if negb (truthy environment) then raise (FetchError 2 no_environment)
          else if eq_str environment sandbox_environment then
            mkValidation (Return tt)
              (JObject (Dict.set "control"
                          (JObject (Dict.set "environment"
                                      (JString production_environment) section))
                          fields))
              ["Replacing sandbox control environment in the service config"]
          else mkValidation (Return tt) (JObject fields) []
      | _ => raise AttributeError
      end.
Proof.
  run_validator. rewrite !get_or_None_item. cbv zeta.
  destruct (truthy (item fields "name")); cbn [negb]; auto.
  destruct (eq_str (item fields "name") expected_name); cbn [negb]; auto.
  destruct (truthy (item fields "id")); cbn [negb]; auto.
  destruct (eq_str (item fields "id") expected_version); cbn [negb]; auto.
  destruct (truthy (item fields "control")) eqn:Ec; cbn [negb]; auto.
  destruct (truthy_item _ _ Ec) as (c & Hc & ->).
  destruct c as [| | | | | |section]; try reflexivity.
  rewrite get_or_None_item.
  destruct (truthy (item section "environment")); cbn [negb]; auto.
  destruct (eq_str (item section "environment") sandbox_environment); auto.
  now rewrite (set_control_environment_dict _ _ _ Hc).
Qed.

(** A document that is not a dict has no [get]. *)
Lemma validate_not_dict config expected_name expected_version :
  (forall fields, config <> JObject fields) ->
  validate_service_config config expected_name expected_version
  = mkValidation (Raise AttributeError) config [].
Proof.
  intros H. run_validator. destruct config; try reflexivity.
  now elim (H fields).
Qed.

(** C3 (amended): on a config dict whose control section, when it is
    truthy, is a dict, the validator makes its six checks in the listed
    order, and a run that does not succeed raises a FetchError with code 2
    and the reason of the check that failed, the six reasons being distinct.
    Once the name and ID checks pass, it fails with the no-control-section
    reason exactly when the control section is absent or falsy (None,
    False, zero, an empty string, list or dict), and for a control section
    that is a non-empty dict it fails with the missing-environment reason
    exactly when control.environment is absent or falsy.  The checks and
    the code of a FetchError are as stated on every config dict; what a
    truthy control section that is no dict leads to is not part of the
    statement. *)
Theorem checks_in_order fields expected_name expected_version :
  let run := validate_service_config (JObject fields) expected_name expected_version in
  let name := item fields "name" in
  let id := item fields "id" in
  let control := item fields "control" in
  (truthy name = false -> ended run = Raise (FetchError 2 no_name)) /\
  (truthy name = true -> eq_str name expected_name = false ->
   ended run = Raise (FetchError 2 (unexpected_name name))) /\
  (truthy name = true -> eq_str name expected_name = true ->
   (truthy id = false -> ended run = Raise (FetchError 2 no_id)) /\
   (truthy id = true -> eq_str id expected_version = false ->
    ended run = Raise (FetchError 2 (unexpected_id id))) /\
   (truthy id = true -> eq_str id expected_version = true ->
    (ended run = Raise (FetchError 2 no_control) <-> truthy control = false) /\
    (forall section, control = JObject section -> truthy control = true ->
       (ended run = Raise (FetchError 2 no_environment)
        <-> truthy (item section "environment") = false)))) /\
  (forall code message, ended run = Raise (FetchError code message) -> code = 2) /\
  (forall x y, NoDup [no_name; unexpected_name x; no_id; unexpected_id y;
                      no_control; no_environment]) /\
  ((truthy control = true -> exists section, control = JObject section) ->
   ended run = Return tt \/
   exists failed_check,
     In failed_check [no_name; unexpected_name name; no_id; unexpected_id id;
                      no_control; no_environment] /\
     ended run = Raise (FetchError 2 failed_check)).
Proof.
  cbv zeta. rewrite validate_dict. cbv zeta.
  split; [|split; [|split; [|split; [|split]]]].
  - intros ->. reflexivity.
  - intros -> ->. reflexivity.
  - intros -> ->. cbn [negb]. split; [|split].
    + intros ->. reflexivity.
    + intros -> ->. reflexivity.
    + intros -> ->. cbn [negb].
      destruct (truthy (item fields "control")) eqn:Ec; cbn [negb].
      * split.
        -- split; [|discriminate].
           destruct (item fields "control") as [| | | | | |section];
             try discriminate.
           destruct (truthy (item section "environment")); cbn [negb];
             [destruct (eq_str _ _)|]; discriminate.
        -- intros section -> _.
           destruct (truthy (item section "environment")); cbn [negb].
           ++ split; [|discriminate].
              destruct (eq_str _ _); discriminate.
           ++ split; auto.
      * split; [split; auto|].
        intros section _ H. discriminate.
  - intros code message.
    repeat match goal with
           | |- context [if ?b then _ else _] => destruct b
           | |- context [match ?j with JNull => _ | _ => _ end] => destruct j
           end; cbn [ended]; intros H; inversion H; reflexivity.
  - intros x y. unfold no_name, unexpected_name, no_id, unexpected_id,
      no_control, no_environment.
    repeat constructor; cbn; intuition discriminate.
  - intros Hshape.
    destruct (truthy (item fields "name")); cbn [negb];
      [|right; eexists; split; [|reflexivity]; simpl; auto 10].
    destruct (eq_str (item fields "name") expected_name); cbn [negb];
      [|right; eexists; split; [|reflexivity]; simpl; auto 10].
    destruct (truthy (item fields "id")); cbn [negb];
      [|right; eexists; split; [|reflexivity]; simpl; auto 10].
    destruct (eq_str (item fields "id") expected_version); cbn [negb];
      [|right; eexists; split; [|reflexivity]; simpl; auto 10].
    destruct (truthy (item fields "control")) eqn:Ec; cbn [negb];
      [|right; eexists; split; [|reflexivity]; simpl; auto 10].
    destruct (Hshape eq_refl) as [section ->].
    destruct (truthy (item section "environment")); cbn [negb];
      [|right; eexists; split; [|reflexivity]; simpl; auto 10].
    destruct (eq_str (item section "environment") sandbox_environment);
      left; reflexivity.
Qed.

(** How a successful run on a dict ended: either nothing was touched, or
    the environment was the sandbox one and has been replaced. *)
Lemma validate_success fields expected_name expected_version :
  let run := validate_service_config (JObject fields) expected_name expected_version in
  ended run = Return tt ->
  truthy (item fields "name") = true /\
  eq_str (item fields "name") expected_name = true /\
  truthy (item fields "id") = true /\
  eq_str (item fields "id") expected_version = true /\
  exists section environment,
    Dict.get "control" fields = Some (JObject section) /\
    Dict.get "environment" section = Some environment /\
    truthy environment = true /\
    ((eq_str environment sandbox_environment = false /\
      run = mkValidation (Return tt) (JObject fields) [])
     \/
     (environment = JString sandbox_environment /\
      run = mkValidation (Return tt)
              (JObject (Dict.set "control"
                          (JObject (Dict.set "environment"
                                      (JString production_environment) section))
                          fields))
              ["Replacing sandbox control environment in the service config"])).
Proof.
  cbv zeta. rewrite validate_dict. cbv zeta.
  destruct (truthy (item fields "name")); cbn [negb]; [|discriminate].
  destruct (eq_str (item fields "name") expected_name); cbn [negb]; [|discriminate].
  destruct (truthy (item fields "id")); cbn [negb]; [|discriminate].
  destruct (eq_str (item fields "id") expected_version); cbn [negb]; [|discriminate].
  destruct (truthy (item fields "control")) eqn:Ec; cbn [negb]; [|discriminate].
  destruct (truthy_item _ _ Ec) as (c & Hc & ->).
  destruct c as [| | | | | |section]; try discriminate.
  destruct (truthy (item section "environment")) eqn:Ee; cbn [negb]; [|discriminate].
  destruct (truthy_item _ _ Ee) as (environment & He & Hitem).
  rewrite Hitem in *.
  intros H. repeat split; auto. exists section, environment.
  split; [auto|split; [auto|split; [auto|]]].
  destruct (eq_str environment sandbox_environment) eqn:Es; [right | left]; auto.
  split; auto. now apply eq_str_true.
Qed.

Lemma control_environment_dict fields section environment :
  Dict.get "control" fields = Some (JObject section) ->
  Dict.get "environment" section = Some environment ->
  control_environment (JObject fields) = Return environment.
Proof. intros Hc He. unfold control_environment. simpl. rewrite Hc. simpl. now rewrite He. Qed.

(** C4: the sandbox config of the spec validates and comes out with the
    production environment; and a config that validates and whose
    control.environment is not the sandbox hostname comes out as it went
    in, its environment included. *)
Theorem sandbox_environment_is_replaced :
  (let config :=
     JObject [("name", JString "a"); ("id", JString "v1");
              ("control",
               JObject [("environment",
                         JString "endpoints-servicecontrol.sandbox.googleapis.com")])] in
   let run := validate_service_config config "a" "v1" in
   ended run = Return tt /\
   control_environment (document run) = Return (JString "servicecontrol.googleapis.com")) /\
  (forall config expected_name expected_version,
      let run := validate_service_config config expected_name expected_version in
      ended run = Return tt ->
      control_environment config <> Return (JString sandbox_environment) ->
      document run = config /\
      control_environment (document run) = control_environment config).
Proof.
  split; [split; reflexivity|].
  intros config expected_name expected_version run Hok Hne.
  assert (document run = config) as Hdoc; [|now rewrite Hdoc].
  subst run. destruct config as [| | | | | |fields]; try discriminate.
  destruct (validate_success _ _ _ Hok)
    as (_ & _ & _ & _ & section & environment & Hc & He & _ & [[_ ->] | [-> _]]).
  - reflexivity.
  - elim Hne. now apply control_environment_dict with section.
Qed.

(** C9: when the validator succeeds, running it again on the document it
    left succeeds, leaves the same document, and logs no replacement. *)
Theorem validate_twice config expected_name expected_version :
  let first := validate_service_config config expected_name expected_version in
  ended first = Return tt ->
  let second :=
    validate_service_config (document first) expected_name expected_version in
  ended second = Return tt /\
  document second = document first /\
  warnings second = [].
Proof.
  intros first Hok second. subst first second.
  destruct config as [| | | | | |fields]; try discriminate.
  destruct (validate_success _ _ _ Hok)
    as (Hn & Hn' & Hi & Hi' & section & environment & Hc & He & Ht
        & [[Hs Hrun] | [-> Hrun]]).
  - rewrite Hrun. cbn [document]. rewrite Hrun. auto.
  - rewrite Hrun. cbn [document]. rewrite validate_dict. cbv zeta.
    rewrite !item_set_other by discriminate.
    rewrite Hn, Hn', Hi, Hi', item_set_same, set_not_empty, item_set_same.
    cbn. auto.
Qed.

(** C10: the validator leaves the document alone unless it succeeds on a
    sandbox environment; a failed run changes nothing; and in every case
    the document keeps its top-level keys in their places with their
    values, but for the value under control, which keeps its own keys in
    their places with their values but for the one under environment. *)
Theorem validate_frame config expected_name expected_version :
  let run := validate_service_config config expected_name expected_version in
  (forall e, ended run = Raise e -> document run = config) /\
  (document run <> config ->
   ended run = Return tt /\
   control_environment config = Return (JString sandbox_environment) /\
   control_environment (document run) = Return (JString production_environment)) /\
  (forall fields, config = JObject fields ->
     exists fields',
       document run = JObject fields' /\
       Dict.keys fields' = Dict.keys fields /\
       same_but "control" fields fields' /\
       forall section, Dict.get "control" fields = Some (JObject section) ->
         exists section',
           Dict.get "control" fields' = Some (JObject section') /\
           same_but "environment" section section').
Proof.
  intros run.
  assert (Hcases :
    document run = config \/
    exists fields section,
      config = JObject fields /\ ended run = Return tt /\
      Dict.get "control" fields = Some (JObject section) /\
      Dict.get "environment" section = Some (JString sandbox_environment) /\
      document run
      = JObject (Dict.set "control"
                   (JObject (Dict.set "environment"
                               (JString production_environment) section)) fields)).
  { destruct (ended run) as [[]|e] eqn:Hend.
    - subst run. destruct config as [| | | | | |fields]; try discriminate.
      destruct (validate_success _ _ _ Hend)
        as (_ & _ & _ & _ & section & environment & Hc & He & _
            & [[_ Hrun] | [-> Hrun]]).
      + left. now rewrite Hrun.
      + right. exists fields, section. rewrite Hrun. auto.
    - left. subst run. destruct config as [| | | | | |fields]; try reflexivity.
      revert Hend. rewrite validate_dict. cbv zeta.
      repeat match goal with
             | |- context [if ?b then _ else _] => destruct b
             | |- context [match ?j with JNull => _ | _ => _ end] => destruct j
             end; cbn [ended document]; intros H; try discriminate; reflexivity. }
  split; [|split].
  - intros e He. destruct Hcases as [|(fields & section & _ & Hok & _)]; auto.
    congruence.
  - intros Hne. destruct Hcases as [|(fields & section & -> & Hok & Hc & He & ->)];
      [contradiction|].
    split; [auto|split].
    + now apply control_environment_dict with section.
    + apply control_environment_dict
        with (Dict.set "environment" (JString production_environment) section);
        apply DictFacts.get_set_same.
  - intros fields ->.
    destruct Hcases as [->|(fields0 & section & Heq & _ & Hc & He & ->)].
    + exists fields. split; [auto|split; [auto|split; [apply same_but_refl|]]].
      intros section Hs. exists section. split; [auto|apply same_but_refl].
    + inversion Heq; subst fields0.
      assert (Hsame : same_but "control" fields
                (Dict.set "control"
                   (JObject (Dict.set "environment"
                               (JString production_environment) section)) fields))
        by now apply same_but_set with (JObject section).
      eexists. split; [reflexivity|split; [|split]].
      * now apply same_but_keys with "control".
      * exact Hsame.
      * intros section0 Hs. rewrite Hc in Hs. inversion Hs; subst section0.
        eexists. split; [apply DictFacts.get_set_same|].
        now apply same_but_set with (JString sandbox_environment).
Qed.

End ValidatorFacts.

(** ** The config fetcher *)

Section FetcherFacts.

Variable json_loads : string -> option json.

Abbreviation fetch_service_json := (fetch_service_json json_loads).

(** A response that is not 200 is a FetchError with code 1 naming the
    status, the reason and the URL; nothing is decoded. *)
Lemma not_200_raises_FetchError url access_token c r rest :
  script c = Some r :: rest ->
  status r <> 200 ->
  fst (fetch_service_json url access_token c)
  = Raise (FetchError 1 (config_failed (status r) (reason r) url)).
Proof.
  intros Hs Hne. fetch_config. rewrite Hs.
  apply Z.eqb_neq in Hne. now rewrite Hne.
Qed.

(** C7 (amended): on a 200 response the fetcher hands the body to the
    decoder and returns what it decodes; when the body is not well-formed
    JSON the decoder's ValueError leaves the fetcher as it is, and no
    FetchError is raised. *)
Theorem fetch_service_json_decodes url access_token c r rest :
  script c = Some r :: rest ->
  status r = 200 ->
  fst (fetch_service_json url access_token c)
  = match json_loads (data r) with
    | Some service_config => Return service_config
    | None => Raise ValueError
    end.
Proof.
  intros Hs H200. fetch_config. rewrite Hs, H200. cbn.
  now destruct (json_loads (data r)).
Qed.

End FetcherFacts.


(** * Concrete runs *)

(** C1, at the three-page feed: the current rollout on page 2 is returned,
    past an empty page and three records that are stepped over, and before
    an older successful one. *)
Lemma first_successful_rollout_on_feed :
  fst (fetch_latest_rollout Sample.feed Sample.plain "svc" (Some "token")
         Sample.feed_client)
  = Return (JObject [("v2", JInt 100)]).
Proof.
  apply (first_successful_rollout_is_returned Sample.feed Sample.plain
           "svc" (Some "token") Sample.feed_client
           [(Sample.ok "page-1", JString "t1")] (Sample.ok "page-2")
           [Sample.failed; Sample.cancelled; Sample.removed]
           Sample.current [Sample.older]
           (JObject [("v2", JInt 100)]) [Some (Sample.ok "page-3")]).
  - reflexivity.
  - constructor; [|constructor].
    exists []. split; [is_page | split; [constructor | reflexivity]].
  - is_list.
  - constructor; [other_status | constructor; [other_status | constructor;
      [no_strategy | constructor]]].
  - returned_from.
Defined.

(** C1 as the spec has it fails: a SUCCESS rollout whose percentages are the
    empty mapping is not winning for the spec, yet the selector returns its
    empty mapping instead of the percentages of the winning record after
    it. *)
Lemma empty_percentages_are_returned_first :
  winning Sample.drained = false /\
  winning Sample.current = true /\
  percentages Sample.current = Return (JObject [("v2", JInt 100)]) /\
  fst (fetch_latest_rollout Sample.drained_first Sample.plain "svc" None
         Sample.one_page)
  = Return (JObject []).
Proof. repeat split. Qed.

(** C2, at two pages without a record to return. *)
Lemma exhausted_pages_on_stale_feed :
  fetch_latest_rollout Sample.stale Sample.plain "svc" None Sample.stale_client
  = (Raise (FetchError 1
              "Fetching rollouts failed (status code 200, reason OK, url https://servicemanagement.googleapis.com/v1/services/svc/rollouts?pageToken=t1)"),
     mkClient []
       [("https://servicemanagement.googleapis.com/v1/services/svc/rollouts?pageToken=", []);
        ("https://servicemanagement.googleapis.com/v1/services/svc/rollouts?pageToken=t1", [])]).
Proof.
  apply (exhausted_pages_raise_FetchError Sample.stale Sample.plain
           "svc" None Sample.stale_client
           [(Sample.ok "page-1", JString "t1")] (Sample.ok "page-2")
           [Sample.unset; Sample.cancelled] []).
  - reflexivity.
  - constructor; [|constructor].
    exists [Sample.failed; Sample.removed].
    split; [is_page | split; [|reflexivity]].
    constructor; [other_status | constructor; [no_strategy | constructor]].
  - is_page.
  - constructor; [no_percentages | constructor; [other_status | constructor]].
Defined.

(** C2 as the spec has it fails: with no winning record in the spec's sense
    and a None token, the selector returns an empty mapping as success. *)
Lemma empty_percentages_are_returned_as_success :
  forallb (fun r => negb (winning r)) [Sample.drained] = true /\
  Sample.drained_only "page-1" = Some (Sample.page [Sample.drained] JNull) /\
  fst (fetch_latest_rollout Sample.drained_only Sample.plain "svc" None
         Sample.one_page)
  = Return (JObject []).
Proof. repeat split. Qed.

(** C3 as the spec has it fails: a control section that is present and not
    None, but an empty dict, gets the no-control-section reason. *)
Lemma empty_control_section_counts_as_missing :
  subscript Sample.empty_control "control" = Return (JObject []) /\
  is_None (JObject []) = false /\
  ended (validate_service_config Sample.plain Sample.empty_control "a" "v1")
  = Raise (FetchError 2 "No control section in the service config").
Proof. repeat split. Qed.

(** C5, at a first page that has rollouts and no ["nextPageToken"] key. *)
Lemma absent_token_on_bare_page :
  fst (fetch_latest_rollout Sample.bare Sample.plain "svc" None Sample.one_page)
  = Raise (KeyError "nextPageToken").
Proof.
  apply (absent_token_raises_KeyError Sample.bare Sample.plain "svc" None
           Sample.one_page [] (Sample.ok "page-1")
           [("rollouts", JArray [Sample.failed])] [Sample.failed] []).
  - reflexivity.
  - constructor.
  - reflexivity.
  - reflexivity.
  - reflexivity.
  - constructor; [other_status | constructor].
  - reflexivity.
Defined.

(** C6, at a first page whose body is the empty dict. *)
Lemma absent_rollouts_on_bare_page :
  fst (fetch_latest_rollout Sample.bare Sample.plain "svc" None
         (mkClient [Some (Sample.ok "page-2")] []))
  = Raise (KeyError "rollouts").
Proof.
  apply (absent_rollouts_raise_KeyError Sample.bare Sample.plain "svc" None
           (mkClient [Some (Sample.ok "page-2")] []) (Sample.ok "page-2") [] []);
    reflexivity.
Defined.

(** C7, at a body the decoder knows. *)
Lemma fetch_service_json_on_known_body :
  fst (fetch_service_json Sample.configs Sample.config_url (Some "token")
         (mkClient [Some (Sample.ok "config-v1")] []))
  = Return Sample.sandbox_config.
Proof.
  apply (fetch_service_json_decodes Sample.configs Sample.config_url (Some "token")
           (mkClient [Some (Sample.ok "config-v1")] []) (Sample.ok "config-v1") []);
    reflexivity.
Defined.

(** C7 as the spec has it fails: a 200 response with a malformed body ends
    in ValueError, which is no FetchError of any code. *)
Lemma malformed_body_escapes_as_ValueError :
  let c := mkClient [Some (mkResponse 200 "OK" "{not json")] [] in
  Sample.configs "{not json" = None /\
  fst (fetch_service_json Sample.configs Sample.config_url None c) = Raise ValueError /\
  forall code message,
    fst (fetch_service_json Sample.configs Sample.config_url None c)
    <> Raise (FetchError code message).
Proof. repeat split. intros code message H. discriminate H. Qed.

(** C8, at the three-page feed: the record to return is on page 2, two
    requests are sent, and page 3 stays in the script. *)
Lemma two_requests_on_feed :
  let c' := snd (fetch_latest_rollout Sample.feed Sample.plain "svc" None
                   Sample.feed_client) in
  script c' = [Some (Sample.ok "page-3")] /\
  requests c'
  = [("https://servicemanagement.googleapis.com/v1/services/svc/rollouts?pageToken=", []);
     ("https://servicemanagement.googleapis.com/v1/services/svc/rollouts?pageToken=t1", [])] /\
  length (requests c') = 2%nat.
Proof.
  cbv zeta.
  assert (H := requests_exactly_the_pages_needed Sample.feed Sample.plain
                 "svc" None Sample.feed_client
                 [(Sample.ok "page-1", JString "t1")] (Sample.ok "page-2")
                 [Some (Sample.ok "page-3")]).
  cbv zeta in H.
  destruct H as (Hscript & Hrequests & Hlength & _).
  - reflexivity.
  - constructor; [|constructor].
    exists []. split; [is_page | split; [constructor | reflexivity]].
  - left.
    exists [Sample.failed; Sample.cancelled; Sample.removed], Sample.current,
      [Sample.older], (JObject [("v2", JInt 100)]).
    split; [is_list | split; [|returned_from]].
    constructor; [other_status | constructor; [other_status | constructor;
      [no_strategy | constructor]]].
  - split; [exact Hscript | split; [exact Hrequests | exact Hlength]].
Defined.

(** C8 as the spec has it fails: the first record that is winning for the
    spec is on page 2, yet the selector returns from page 1 after a single
    request, since it takes the SUCCESS rollout with empty percentages. *)
Lemma empty_percentages_end_the_scan_on_page_one :
  let c' := snd (fetch_latest_rollout Sample.drained_page Sample.plain "svc" None
                   Sample.two_pages) in
  winning Sample.drained = false /\
  winning Sample.current = true /\
  Sample.drained_page "page-1" = Some (Sample.page [Sample.drained] (JString "t1")) /\
  Sample.drained_page "page-2" = Some (Sample.page [Sample.current] JNull) /\
  length (requests c') = 1%nat /\
  script c' = [Some (Sample.ok "page-2")].
Proof. repeat split. Qed.

(** C9, at the sandbox config: the second run finds the production
    environment and changes nothing. *)
Lemma validate_twice_on_sandbox_config :
  let first := validate_service_config Sample.plain Sample.sandbox_config "a" "v1" in
  let second := validate_service_config Sample.plain (document first) "a" "v1" in
  warnings first = ["Replacing sandbox control environment in the service config"] /\
  ended second = Return tt /\
  document second = document first /\
  warnings second = [].
Proof.
  cbv zeta. split; [reflexivity|].
  apply (validate_twice Sample.plain Sample.sandbox_config "a" "v1").
  reflexivity.
Defined.

(** * More on the selector *)

Lemma subscript_raises j k e :
  subscript j k = Raise e -> e = TypeError \/ e = KeyError k.
Proof.
  destruct j; simpl; try (intros H; inversion H; auto; fail).
  destruct (Dict.get k fields); intros H; inversion H; auto.
Qed.

(** The condition raises exactly on the [unreadable] records. *)
Lemma is_successful_raises rollout e :
  is_successful rollout = Raise e <-> unreadable rollout e.
Proof.
  split.
  - unfold is_successful.
    destruct rollout as [| | | | | |fields];
      try (simpl; intros H; inversion H; apply NotADict; discriminate).
    simpl. destruct (Dict.get "status" fields) as [s|] eqn:Es; simpl.
    + destruct (is_None s); [discriminate|].
      destruct (eq_str s "SUCCESS") eqn:Eeq; simpl; [|discriminate].
      apply eq_str_true in Eeq. subst s.
      destruct (Dict.get "trafficPercentStrategy" fields) as [t|] eqn:Et; simpl.
      * destruct (is_None t) eqn:Ent; [discriminate|].
        destruct t as [| | | | | |strategy];
          try (simpl; intros H; inversion H;
               eapply StrategyNotADict; eauto; discriminate).
        simpl. destruct (Dict.get "percentages" strategy) eqn:Ep; simpl;
          [discriminate|].
        intros H. inversion H. now apply PercentagesMissing with strategy.
      * intros H. inversion H. now apply StrategyMissing.
    + intros H. inversion H. now apply StatusMissing.
  - intros H. unfold is_successful.
    destruct H as [rollout Hno | fields Hs | fields Hs Ht | fields t Hs Ht Hn Hno
                  | fields strategy Hs Ht Hp].
    + destruct rollout; try reflexivity. now elim (Hno fields).
    + simpl. now rewrite Hs.
    + simpl. rewrite Hs. simpl. now rewrite Ht.
    + simpl. rewrite Hs. simpl. rewrite Ht. simpl. rewrite Hn.
      destruct t; try reflexivity. now elim (Hno fields0).
    + simpl. rewrite Hs. simpl. rewrite Ht. simpl. now rewrite Hp.
Qed.

(** The records stepped over are the ones the scan can read and does not
    return from. *)
Lemma passed_over_iff rollout :
  passed_over rollout
  <-> (forall e, ~ unreadable rollout e) /\ (forall p, ~ successful rollout p).
Proof.
  pose proof (is_successful_cases rollout) as Hc. split.
  - intros H. pose proof (is_successful_false _ H) as Hf. split.
    + intros e He. apply is_successful_raises in He. congruence.
    + intros p Hp. destruct (is_successful_true _ _ Hp). congruence.
  - intros [Hread Hnone].
    destruct (is_successful rollout) as [[|]|e] eqn:E.
    + destruct Hc as [p Hp]. now elim (Hnone p).
    + exact Hc.
    + apply is_successful_raises in E. now elim (Hread e).
Qed.

Lemma unreadable_not_FetchError rollout e :
  unreadable rollout e -> forall code message, e <> FetchError code message.
Proof. intros [] code message; discriminate. Qed.

(** What the [for] loop returns is the percentages of one of its records,
    with every record before it stepped over. *)
Lemma first_successful_returns rollouts p :
  first_successful rollouts = Return (Some p) ->
  exists before w after,
    rollouts = (before ++ w :: after)%list /\
    Forall passed_over before /\ successful w p.
Proof.
  induction rollouts as [|r rs IH]; simpl; [discriminate|].
  pose proof (is_successful_cases r) as Hr.
  destruct (is_successful r) as [[|]|e]; simpl.
  - destruct Hr as [q Hq]. destruct (is_successful_true _ _ Hq) as [_ ->]. simpl.
    intros H. inversion H; subst. exists [], r, rs. auto.
  - intros H. destruct (IH H) as (before & w & after & -> & Hb & Hw).
    exists (r :: before), w, after. auto.
  - discriminate.
Qed.

(** When the [for] loop raises, it is on an unreadable record, with every
    record before it stepped over. *)
Lemma first_successful_raises rollouts e :
  first_successful rollouts = Raise e ->
  exists before bad after,
    rollouts = (before ++ bad :: after)%list /\
    Forall passed_over before /\ unreadable bad e.
Proof.
  induction rollouts as [|r rs IH]; simpl; [discriminate|].
  pose proof (is_successful_cases r) as Hr.
  destruct (is_successful r) as [[|]|e'] eqn:E; simpl.
  - destruct Hr as [q Hq]. destruct (is_successful_true _ _ Hq) as [_ ->].
    discriminate.
  - intros H. destruct (IH H) as (before & bad & after & -> & Hb & Hbad).
    exists (r :: before), bad, after. auto.
  - intros H. inversion H; subst. exists [], r, rs.
    repeat split; auto. now apply is_successful_raises.
Qed.

Lemma first_successful_unreadable before bad after e :
  Forall passed_over before ->
  unreadable bad e ->
  first_successful (before ++ bad :: after) = Raise e.
Proof.
  intros Hb Hbad. induction Hb as [|r rs Hr _ IH]; simpl.
  - apply is_successful_raises in Hbad. now rewrite Hbad.
  - now rewrite (is_successful_false _ Hr).
Qed.

Lemma subscript_returns j k v : subscript j k = Return v -> has_field j k v.
Proof.
  destruct j; simpl; try discriminate.
  destruct (Dict.get k fields) eqn:E; intros H; inversion H; subst.
  now constructor.
Qed.

(** Strings are never returned from: iterating a dict or a string gives
    nothing the scan can read. *)
Lemma first_successful_of_strings rollouts :
  Forall (fun j => exists s, j = JString s) rollouts ->
  first_successful rollouts
  = match rollouts with [] => Return None | _ => Raise TypeError end.
Proof.
  intros H. destruct H as [|j rollouts [s ->] _]; reflexivity.
Qed.

Lemma iterate_no_list listed items :
  iterate listed = Return items ->
  (forall l, listed <> JArray l) ->
  Forall (fun j => exists s, j = JString s) items /\
  (items = [] <-> listed = JString "" \/ listed = JObject []).
Proof.
  destruct listed as [| | | |s|l|fields]; simpl; try discriminate;
    intros H Hno; inversion H; subst; clear H.
  - split.
    + apply Forall_forall. intros j Hj. apply in_map_iff in Hj.
      destruct Hj as (c & <- & _). eauto.
    + destruct s; simpl; split; intros H; auto; try discriminate.
      destruct H; discriminate.
  - now elim (Hno _ eq_refl).
  - split.
    + apply Forall_forall. intros j Hj. apply in_map_iff in Hj.
      destruct Hj as (kv & <- & _). eauto.
    + destruct fields; simpl; split; intros H; auto; try discriminate.
      destruct H; discriminate.
Qed.

Section SelectorMore.

Variable json_loads : string -> option json.
Variable repr : json -> string.

Abbreviation scan_page := (scan_page json_loads).
Abbreviation rollout_loop := (rollout_loop json_loads repr).
Abbreviation fetch_latest_rollout := (fetch_latest_rollout json_loads repr).
Abbreviation rollouts_url := (rollouts_url repr).
Abbreviation page_of := (page_of json_loads).
Abbreviation lists := (lists json_loads).
Abbreviation goes_on := (goes_on json_loads).
Abbreviation page_urls := (page_urls repr).

(** A page is returned from only when it is a 200 page that lists a
    successful rollout after records that are stepped over. *)
Lemma scan_page_returned url r p :
  scan_page url r = Returned p ->
  exists before w after,
    lists r (before ++ w :: after) /\ Forall passed_over before /\ successful w p.
Proof.
  open_page. destruct (status r =? 200) eqn:E200; cbn [negb]; [|discriminate].
  apply Z.eqb_eq in E200.
  destruct (json_loads (data r)) as [body|] eqn:Eb; [|discriminate].
  destruct (subscript body "rollouts") as [listed|e] eqn:El; [|discriminate].
  destruct (is_None listed); [discriminate|].
  destruct (iterate listed) as [items|e] eqn:Ei; cbn [bind]; [|discriminate].
  destruct (first_successful items) as [[q|]|e] eqn:Ef; try discriminate.
  - intros H. inversion H; subst q.
    destruct (first_successful_returns _ _ Ef) as (before & w & after & -> & Hb & Hw).
    exists before, w, after. repeat split; auto.
    exists body. split; auto.
    apply subscript_returns in El.
    destruct listed as [| | | |s|l|fields]; try discriminate.
    + exfalso. destruct (iterate_no_list _ _ Ei) as [Hs _]; [discriminate|].
      rewrite (first_successful_of_strings _ Hs) in Ef.
      destruct (before ++ w :: after)%list; discriminate.
    + simpl in Ei. inversion Ei; subst. assumption.
    + exfalso. destruct (iterate_no_list _ _ Ei) as [Hs _]; [discriminate|].
      rewrite (first_successful_of_strings _ Hs) in Ef.
      destruct (before ++ w :: after)%list; discriminate.
  - destruct (subscript body "nextPageToken") as [t|e]; [|discriminate].
    destruct (is_None t); discriminate.
Qed.

Lemma scan_page_next url r token :
  scan_page url r = NextPage token -> is_None token = false.
Proof.
  open_page. destruct (negb (status r =? 200)); [discriminate|].
  destruct (json_loads (data r)) as [body|]; [|discriminate].
  destruct (subscript body "rollouts") as [listed|e]; [|discriminate].
  destruct (is_None listed); [discriminate|].
  destruct (bind _ _) as [[q|]|e]; try discriminate.
  destruct (subscript body "nextPageToken") as [t|e]; [|discriminate].
  destruct (is_None t) eqn:E; [discriminate|].
  intros H. now inversion H; subst.
Qed.

(** What a page can fail with: no FetchError but with code 1. *)
Lemma scan_page_failed url r code message :
  scan_page url r = Failed (FetchError code message) -> code = 1.
Proof.
  open_page. destruct (negb (status r =? 200)); [intros H; now inversion H|].
  destruct (json_loads (data r)) as [body|]; [|discriminate].
  destruct (subscript body "rollouts") as [listed|e] eqn:El.
  - destruct (is_None listed); [intros H; now inversion H|].
    destruct (iterate listed) as [items|e] eqn:Ei; cbn [bind].
    + destruct (first_successful items) as [[q|]|e] eqn:Ef; try discriminate.
      * destruct (subscript body "nextPageToken") as [t|e] eqn:Et.
        -- destruct (is_None t); discriminate.
        -- intros H. inversion H; subst.
           destruct (subscript_raises _ _ _ Et); discriminate.
      * intros H. inversion H; subst.
        destruct (first_successful_raises _ _ Ef) as (_ & bad & _ & _ & _ & Hbad).
        now elim (unreadable_not_FetchError _ _ Hbad code message).
    + destruct listed; simpl in Ei; inversion Ei; discriminate.
  - intros H. inversion H; subst.
    destruct (subscript_raises _ _ _ El); discriminate.
Qed.

Lemma rollout_loop_requests service_name h pending :
  forall token sent,
  exists tokens,
    requests (snd (rollout_loop service_name h token pending sent))
    = (sent ++ log h (map (rollouts_url service_name) (token :: tokens)))%list /\
    Forall (fun t => is_None t = false) tokens /\
    script (snd (rollout_loop service_name h token pending sent))
    = skipn (S (length tokens)) pending.
Proof.
  induction pending as [|[r|] rest IH]; intros token sent;
    try (exists []; repeat split; auto; fail).
  loop_turn. destruct (scan_page _ r) as [p|e| |next] eqn:E;
    try (exists []; repeat split; auto; fail).
  destruct (IH next (sent ++ [(rollouts_url service_name token, h)])%list)
    as (tokens & Hreq & Hall & Hscript).
  exists (next :: tokens). repeat split.
  - rewrite Hreq, <- app_assoc. reflexivity.
  - constructor; auto. now apply scan_page_next with (rollouts_url service_name token) r.
  - exact Hscript.
Qed.

(** X1: whatever the responses, a run of the selector only adds to the
    client's request log; every request it adds asks for a rollouts page of
    the service, with the same headers (the bearer token when there is
    one); the first asks with the empty page token and each later one with
    a token that is not None; and each request takes one response of the
    script. *)
Theorem every_request_asks_for_a_rollouts_page service_name access_token c :
  let c' := snd (fetch_latest_rollout service_name access_token c) in
  exists tokens,
    requests c'
    = (requests c
         ++ log (auth_headers access_token)
              (map (rollouts_url service_name) (JString "" :: tokens)))%list /\
    Forall (fun t => is_None t = false) tokens /\
    script c' = skipn (S (length tokens)) (script c).
Proof. cbv zeta. enter_loop. apply rollout_loop_requests. Qed.

Lemma rollout_loop_returns service_name h pending :
  forall token sent p,
    fst (rollout_loop service_name h token pending sent) = Return p ->
    exists r before w after,
      In (Some r) pending /\
      lists r (before ++ w :: after) /\
      Forall passed_over before /\ successful w p.
Proof.
  induction pending as [|[r|] rest IH]; intros token sent p; try discriminate.
  loop_turn. destruct (scan_page _ r) as [q|e| |next] eqn:E; cbn [fst];
    try discriminate.
  - intros H. inversion H; subst q.
    destruct (scan_page_returned _ _ _ E) as (before & w & after & Hl & Hb & Hw).
    exists r, before, w, after. split; [now left | auto].
  - intros H. destruct (IH _ _ _ H) as (r' & before & w & after & Hin & Hrest).
    exists r', before, w, after. split; auto. now right.
Qed.

(** X2: whatever the responses, when the selector returns a value it is the
    percentages of a rollout with status SUCCESS listed on a 200 page of the
    script, every record before it on that page being stepped over; so it
    never returns None. *)
Theorem returned_percentages_belong_to_a_successful_rollout
    service_name access_token c p :
  fst (fetch_latest_rollout service_name access_token c) = Return p ->
  is_None p = false /\
  exists r before w after,
    In (Some r) (script c) /\
    lists r (before ++ w :: after) /\
    Forall passed_over before /\ successful w p.
Proof.
  enter_loop. intros H.
  destruct (rollout_loop_returns _ _ _ _ _ _ H)
    as (r & before & w & after & Hin & Hl & Hb & Hw).
  split; [now destruct Hw | exists r, before, w, after; auto].
Qed.

(** X3: after pages the loop goes past, a request that raises, finds the
    script used up, or is answered with a status other than 200 ends the
    run with FetchError code 1: the fixed failed-to-fetch message in the
    first two cases, the status, reason and URL of that response in the
    third.  Nothing of the pages read so far is returned, and no further
    request is sent. *)
Theorem failed_request_raises_FetchError service_name access_token c pages tail :
  script c = (map Some (map fst pages) ++ tail)%list ->
  Forall goes_on pages ->
  answers (hd None tail) = false ->
  let url := rollouts_url service_name (last (map snd pages) (JString "")) in
  let h := auth_headers access_token in
  fetch_latest_rollout service_name access_token c
  = (Raise (FetchError 1
              match hd None tail with
              | Some r => rollouts_failed (status r) (reason r) url
              | None => "Failed to fetch service config"
              end),
     mkClient (tl tail)
       ((requests c ++ log h (page_urls service_name (JString "") (map snd pages)))
          ++ [(url, h)])%list).
Proof.
  intros Hs Hpages Hfail url h.
  rewrite (fetch_latest_rollout_goes_on _ _ _ _ _ _ _ Hs Hpages).
  destruct tail as [|[r|] rest]; try reflexivity.
  loop_turn. open_page. cbn [hd answers] in Hfail. rewrite Hfail. reflexivity.
Qed.

(** X4: a record the scan cannot read ends the run with the exception its
    shape raises (KeyError for a missing status, strategy or percentages
    key, TypeError for a record or strategy that is no dict), even when a
    successful rollout comes after it; records stepped over before it do
    not matter. *)
Theorem unreadable_record_stops_the_scan
    service_name access_token c pages r before bad after e rest :
  script c = (map Some (map fst pages) ++ Some r :: rest)%list ->
  Forall goes_on pages ->
  lists r (before ++ bad :: after) ->
  Forall passed_over before ->
  unreadable bad e ->
  fst (fetch_latest_rollout service_name access_token c) = Raise e /\
  script (snd (fetch_latest_rollout service_name access_token c)) = rest.
Proof.
  intros Hs Hpages [H200 (body & Hb & Hr)] Hbefore Hbad.
  rewrite (fetch_latest_rollout_goes_on _ _ _ _ _ _ _ Hs Hpages).
  loop_turn. open_page.
  rewrite H200, Hb, (subscript_field _ _ _ Hr). cbn.
  rewrite (first_successful_unreadable _ _ _ _ Hbefore Hbad). auto.
Qed.

(** X5: on a 200 page whose rollouts value is neither None nor a list, the
    selector raises TypeError, unless the value is an empty string or an
    empty dict: these are scanned like an empty list, so that with a None
    token the run ends with the rollouts-failed FetchError. *)
Theorem rollouts_that_are_no_list
    service_name access_token c r body listed rest :
  script c = Some r :: rest ->
  status r = 200 ->
  json_loads (data r) = Some body ->
  has_field body "rollouts" listed ->
  is_None listed = false ->
  (forall items, listed <> JArray items) ->
  let result := fst (fetch_latest_rollout service_name access_token c) in
  (listed <> JString "" -> listed <> JObject [] -> result = Raise TypeError) /\
  (listed = JString "" \/ listed = JObject [] ->
   has_field body "nextPageToken" JNull ->
   result = Raise (FetchError 1
                     (rollouts_failed 200 (reason r)
                        (rollouts_url service_name (JString ""))))).
Proof.
  intros Hs H200 Hb Hl Hn Hno result. subst result.
  enter_loop. rewrite Hs. loop_turn. open_page.
  rewrite H200, Hb, (subscript_field _ _ _ Hl), Hn. cbn [negb Z.eqb].
  change (200 =? 200) with true. cbn [negb].
  destruct (iterate listed) as [items|e] eqn:Ei.
  - destruct (iterate_no_list _ _ Ei Hno) as [Hstr Hempty]. cbn [bind].
    rewrite (first_successful_of_strings _ Hstr). split.
    + intros H1 H2. destruct items as [|j items]; [|reflexivity].
      destruct (proj1 Hempty eq_refl); contradiction.
    + intros Hcase Ht. rewrite (proj2 Hempty Hcase).
      now rewrite (subscript_field _ _ _ Ht).
  - cbn [bind]. split.
    + intros _ _. destruct listed; simpl in Ei; inversion Ei; reflexivity.
    + intros [-> | ->]; discriminate.
Qed.

End SelectorMore.

(** * More on the validator *)

Lemma truthy_string s : truthy (JString s) = true <-> s <> "".
Proof.
  simpl. destruct (String.eqb s "") eqn:E; simpl.
  - apply String.eqb_eq in E. split; [discriminate | congruence].
  - apply String.eqb_neq in E. split; auto.
Qed.

Lemma item_present fields k v : Dict.get k fields = Some v -> item fields k = v.
Proof. unfold item. now intros ->. Qed.

Lemma eq_str_same s : eq_str (JString s) s = true.
Proof. simpl. apply String.eqb_refl. Qed.

Section ValidatorMore.

Variable repr : json -> string.

Abbreviation validate_service_config := (validate_service_config repr).

(** X6: the validator succeeds exactly on a dict whose name and id are the
    expected strings, neither of them empty, and whose control section is a
    dict with a truthy environment.  So an empty expected name or version
    validates nothing. *)
Theorem validation_succeeds_exactly_when config expected_name expected_version :
  ended (validate_service_config config expected_name expected_version) = Return tt
  <->
  exists fields section environment,
    config = JObject fields /\
    Dict.get "name" fields = Some (JString expected_name) /\
    expected_name <> "" /\
    Dict.get "id" fields = Some (JString expected_version) /\
    expected_version <> "" /\
    Dict.get "control" fields = Some (JObject section) /\
    Dict.get "environment" section = Some environment /\
    truthy environment = true.
Proof.
  split.
  - intros Hok. destruct config as [| | | | | |fields]; try discriminate.
    destruct (validate_success repr _ _ _ Hok)
      as (Hn & Hn' & Hi & Hi' & section & environment & Hc & He & Ht & _).
    apply eq_str_true in Hn', Hi'.
    destruct (truthy_item _ _ Hn) as (name & Hname & Ename).
    destruct (truthy_item _ _ Hi) as (id & Hid & Eid).
    rewrite Hn' in Hn, Ename. rewrite Hi' in Hi, Eid. subst name id.
    exists fields, section, environment.
    repeat split; auto; now apply truthy_string.
  - intros (fields & section & environment & -> & Hn & Hne & Hi & Hie & Hc & He & Ht).
    rewrite validate_dict. cbv zeta.
    rewrite (item_present _ _ _ Hn), (item_present _ _ _ Hi), (item_present _ _ _ Hc).
    rewrite (proj2 (truthy_string _) Hne), (proj2 (truthy_string _) Hie), !eq_str_same.
    cbn [negb]. rewrite (item_present _ _ _ He), Ht.
    assert (Hs : truthy (JObject section) = true)
      by (destruct section; [discriminate | reflexivity]).
    rewrite Hs. cbn [negb].
    now destruct (eq_str environment sandbox_environment).
Qed.

(** X7: after a successful run the document carries the expected name and
    id and a control environment that is truthy and is not the sandbox
    hostname; a replacement was logged exactly when the document is no
    longer the one that was given. *)
Theorem validated_document_meets_expectations config expected_name expected_version :
  let run := validate_service_config config expected_name expected_version in
  ended run = Return tt ->
  exists fields section environment,
    document run = JObject fields /\
    Dict.get "name" fields = Some (JString expected_name) /\
    Dict.get "id" fields = Some (JString expected_version) /\
    Dict.get "control" fields = Some (JObject section) /\
    Dict.get "environment" section = Some environment /\
    truthy environment = true /\
    eq_str environment sandbox_environment = false /\
    (warnings run = [] <-> document run = config).
Proof.
  intros run Hok. subst run.
  destruct config as [| | | | | |fields]; try discriminate.
  destruct (validate_success repr _ _ _ Hok)
    as (Hn & Hn' & Hi & Hi' & section & environment & Hc & He & Ht
        & [[Hs Hrun] | [-> Hrun]]);
    apply eq_str_true in Hn', Hi';
    destruct (truthy_item _ _ Hn) as (name & Hname & Ename);
    destruct (truthy_item _ _ Hi) as (id & Hid & Eid);
    rewrite Hn' in Ename; rewrite Hi' in Eid; subst name id;
    rewrite Hrun; cbn [document warnings].
  - exists fields, section, environment. repeat split; auto.
  - exists (Dict.set "control"
              (JObject (Dict.set "environment" (JString production_environment) section))
              fields),
      (Dict.set "environment" (JString production_environment) section),
      (JString production_environment).
    split; [reflexivity|].
    split; [now rewrite DictFacts.get_set_other by discriminate|].
    split; [now rewrite DictFacts.get_set_other by discriminate|].
    split; [apply DictFacts.get_set_same|].
    split; [apply DictFacts.get_set_same|].
    split; [reflexivity|]. split; [reflexivity|].
    split; [discriminate|].
    intros Heq. exfalso. inversion Heq as [Hfields].
    assert (Hget : Dict.get "control" fields
                   = Some (JObject (Dict.set "environment"
                                      (JString production_environment) section))).
    { rewrite <- Hfields at 1. apply DictFacts.get_set_same. }
    rewrite Hc in Hget. inversion Hget as [Hsection].
    assert (Henv : Dict.get "environment" section
                   = Some (JString production_environment)).
    { rewrite Hsection at 1. apply DictFacts.get_set_same. }
    rewrite He in Henv. discriminate.
Qed.

(** X8: when the name and id checks pass and the control section is truthy
    but no dict (a string, a number, a list), the validator raises
    AttributeError, no FetchError, and leaves the document as it was. *)
Theorem control_that_is_no_dict fields expected_name expected_version control :
  Dict.get "name" fields = Some (JString expected_name) ->
  expected_name <> "" ->
  Dict.get "id" fields = Some (JString expected_version) ->
  expected_version <> "" ->
  Dict.get "control" fields = Some control ->
  truthy control = true ->
  (forall section, control <> JObject section) ->
  validate_service_config (JObject fields) expected_name expected_version
  = mkValidation (Raise AttributeError) (JObject fields) [].
Proof.
  intros Hn Hne Hi Hie Hc Ht Hno.
  rewrite validate_dict. cbv zeta.
  rewrite (item_present _ _ _ Hn), (item_present _ _ _ Hi), (item_present _ _ _ Hc).
  rewrite (proj2 (truthy_string _) Hne), (proj2 (truthy_string _) Hie), !eq_str_same, Ht.
  cbn [negb]. destruct control as [| | | | | |section]; try reflexivity.
  now elim (Hno section).
Qed.

End ValidatorMore.

(** * More on the fetchers *)

Section FetcherMore.

Variable json_loads : string -> option json.

Abbreviation fetch_service_json := (fetch_service_json json_loads).
Abbreviation fetch_access_token := (fetch_access_token json_loads).

(** X9: the config fetcher sends exactly one request, to the given URL with
    the bearer header when there is a token, whatever comes back; it raises
    FetchError, with code 1, exactly when the request raises or is answered
    with a status other than 200. *)
Theorem fetch_service_json_sends_one_request url access_token c :
  let run := fetch_service_json url access_token c in
  requests (snd run) = (requests c ++ [(url, auth_headers access_token)])%list /\
  script (snd run) = tl (script c) /\
  (forall code message,
      fst run = Raise (FetchError code message) ->
      code = 1 /\ answers (hd None (script c)) = false) /\
  (answers (hd None (script c)) = false ->
   exists message, fst run = Raise (FetchError 1 message)).
Proof.
  cbv zeta. fetch_config.
  destruct (script c) as [|[r|] rest]; cbn [hd tl answers fst snd script requests].
  - split; [reflexivity | split; [reflexivity | split]].
    + intros code message H. inversion H. auto.
    + eauto.
  - destruct (status r =? 200) eqn:E; cbn [negb].
    + destruct (json_loads (data r)); cbn [fst snd script requests];
        (split; [reflexivity | split; [reflexivity | split]]);
        try (intros code message H; discriminate); discriminate.
    + cbn [fst snd script requests].
      split; [reflexivity | split; [reflexivity | split]].
      * intros code message H. inversion H. auto.
      * eauto.
  - split; [reflexivity | split; [reflexivity | split]].
    + intros code message H. inversion H. auto.
    + eauto.
Qed.

(** X10: the token fetcher returns a value exactly when the first response
    is a 200 whose body decodes to a dict with an access_token item, and
    returns that item as it is; a failed request or another status is a
    FetchError with code 1, while a 200 body that is malformed, is no dict
    or has no access_token item raises ValueError, TypeError or KeyError. *)
Theorem access_token_outcomes metadata c :
  let result := fst (fetch_access_token metadata c) in
  (forall token,
      result = Return token <->
      exists r fields,
        hd None (script c) = Some r /\ status r = 200 /\
        json_loads (data r) = Some (JObject fields) /\
        Dict.get "access_token" fields = Some token) /\
  (forall e,
      result = Raise e ->
      (answers (hd None (script c)) = false /\ exists message, e = FetchError 1 message)
      \/ (answers (hd None (script c)) = true /\
          (e = ValueError \/ e = TypeError \/ e = KeyError "access_token"))).
Proof.
  cbv zeta. fetch_token.
  destruct (script c) as [|[r|] rest]; cbn [hd tl answers fst].
  - split.
    + intros token. split; [discriminate | intros (r & f & H & _); discriminate].
    + intros e H. inversion H. left. eauto.
  - destruct (status r =? 200) eqn:E; cbn [negb fst].
    + apply Z.eqb_eq in E.
      destruct (json_loads (data r)) as [decoded|] eqn:Ed; cbn [fst]; split.
      * intros token. split.
        -- intros H. apply subscript_returns in H. inversion H; subst.
           exists r, fields. auto.
        -- intros (r' & fields & Hr & _ & Hd & Hk). inversion Hr; subst r'.
           rewrite Ed in Hd. inversion Hd; subst. simpl. now rewrite Hk.
      * intros e H. right. split; auto.
        destruct (subscript_raises _ _ _ H); auto.
      * intros token. split; [discriminate|].
        intros (r' & fields & Hr & _ & Hd & _). inversion Hr; subst. congruence.
      * intros e H. inversion H. right. auto.
    + split.
      * intros token. split; [discriminate|].
        intros (r' & f & Hr & H200 & _). inversion Hr; subst.
        apply Z.eqb_neq in E. contradiction.
      * intros e H. inversion H. left. eauto.
  - split.
    + intros token. split; [discriminate | intros (r & f & H & _); discriminate].
    + intros e H. inversion H. left. eauto.
Qed.

End FetcherMore.

(** * The attribute fetchers *)

(** X11: the name fetcher sends exactly one request, for the
    endpoints-service-name attribute with the Metadata-Flavor header; it
    returns the body exactly when the answer has status 200, and then logs
    it; anything else is a FetchError with code 1 and nothing is logged. *)
Theorem fetch_service_name_outcomes metadata c :
  let run := fetch_service_name metadata c in
  requests (network run)
  = (requests c
       ++ [((metadata
               ++ "/computeMetadata/v1/instance/attributes/endpoints-service-name")%string,
            [("Metadata-Flavor", "Google")])])%list /\
  script (network run) = tl (script c) /\
  (forall name,
      answer run = Return name <->
      exists r, hd None (script c) = Some r /\ status r = 200 /\ data r = name) /\
  (forall e, answer run = Raise e -> exists message, e = FetchError 1 message) /\
  logged run = match answer run with
               | Return name => ["Service name: " ++ name]
               | Raise _ => []
               end.
Proof.
  cbv zeta. fetch_name.
  destruct (script c) as [|[r|] rest]; cbn [hd tl script].
  - repeat split; try discriminate.
    + intros (r & H & _). discriminate.
    + intros e H. inversion H. eauto.
  - destruct (status r =? 200) eqn:E; cbn [negb answer network logged requests script].
    + apply Z.eqb_eq in E. repeat split; try discriminate.
      * intros H. inversion H. eauto.
      * intros (r' & Hr & _ & <-). now inversion Hr.
    + apply Z.eqb_neq in E. repeat split; try discriminate.
      * intros (r' & Hr & H200 & _). inversion Hr; subst. contradiction.
      * intros e H. inversion H. eauto.
  - repeat split; try discriminate.
    + intros (r & H & _). discriminate.
    + intros e H. inversion H. eauto.
Qed.

(** The runs of [fetch_service_config_id], by the first two entries of the
    script. *)
Lemma fetch_service_config_id_cases metadata c :
  let sent1 := (requests c ++ [(config_id_url metadata, metadata_headers)])%list in
  let sent2 := (sent1 ++ [(service_version_url metadata, metadata_headers)])%list in
  let legacy := service_version_url metadata in
  fetch_service_config_id metadata c
  = match hd None (script c) with
    | Some r =>
        if status r =? 200 then
          mkFetched (Return (data r)) (mkClient (tl (script c)) sent1)
            ["Service config ID:" ++ data r]
        else
          match hd None (tl (script c)) with
          | Some r2 =>
              if status r2 =? 200 then
                mkFetched (Return (data r2)) (mkClient (tl (tl (script c))) sent2)
                  ["Service config ID:" ++ data r2]
              else
                mkFetched (Raise (FetchError 1 (config_id_failed legacy (status r2))))
                  (mkClient (tl (tl (script c))) sent2) []
          | None =>
              mkFetched
                (Raise (FetchError 1
                          ("Failed to fetch service config ID from the metadata server: "
                             ++ legacy)))
                (mkClient (tl (tl (script c))) sent2) []
          end
    | None =>
        match hd None (tl (script c)) with
        | Some r2 =>
            if status r2 =? 200 then
              mkFetched (Return (data r2)) (mkClient (tl (tl (script c))) sent2)
                ["Service config ID:" ++ data r2]
            else
              mkFetched (Raise (FetchError 1 (config_id_failed legacy (status r2))))
                (mkClient (tl (tl (script c))) sent2) []
        | None =>
            mkFetched
              (Raise (FetchError 1
                        ("Failed to fetch service config ID from the metadata server: "
                           ++ legacy)))
              (mkClient (tl (tl (script c))) sent2) []
        end
    end.
Proof.
  cbv zeta. fetch_config_id.
  destruct (script c) as [|[r|] [|[r2|] rest]]; cbn [hd tl script requests];
    try reflexivity;
    try (destruct (status r =? 200); cbn [negb script requests]; try reflexivity;
         destruct (status r2 =? 200); reflexivity);
    destruct (status r2 =? 200); reflexivity.
Qed.

(** X12: the config ID fetcher returns an ID exactly when the primary
    attribute answers 200, and then it is that body, or when the primary
    request fails or answers another status and the legacy
    endpoints-service-version attribute answers 200, and then it is the
    legacy body. *)
Theorem config_id_comes_from_either_attribute metadata c id :
  answer (fetch_service_config_id metadata c) = Return id
  <->
  (exists r, hd None (script c) = Some r /\ status r = 200 /\ data r = id)
  \/ (answers (hd None (script c)) = false /\
      exists r, hd None (tl (script c)) = Some r /\ status r = 200 /\ data r = id).
Proof.
  rewrite fetch_service_config_id_cases. cbv zeta.
  destruct (hd None (script c)) as [r|]; cbn [answers].
  - destruct (status r =? 200) eqn:E; cbn [answer].
    + apply Z.eqb_eq in E. split.
      * intros H. inversion H. left. eauto.
      * intros [(r' & Hr & _ & <-) | [H _]]; [now inversion Hr | discriminate].
    + apply Z.eqb_neq in E.
      destruct (hd None (tl (script c))) as [r2|].
      * destruct (status r2 =? 200) eqn:E2; cbn [answer].
        -- apply Z.eqb_eq in E2. split.
           ++ intros H. inversion H. right. eauto.
           ++ intros [(r' & Hr & H200 & _) | (_ & r' & Hr & _ & <-)];
                inversion Hr; subst; [contradiction | reflexivity].
        -- apply Z.eqb_neq in E2. split; [discriminate|].
           intros [(r' & Hr & H200 & _) | (_ & r' & Hr & H200 & _)];
             inversion Hr; subst; contradiction.
      * cbn [answer]. split; [discriminate|].
        intros [(r' & Hr & H200 & _) | (_ & r' & Hr & _)];
          [inversion Hr; subst; contradiction | discriminate].
  - destruct (hd None (tl (script c))) as [r2|].
    + destruct (status r2 =? 200) eqn:E2; cbn [answer].
      * apply Z.eqb_eq in E2. split.
        -- intros H. inversion H. right. eauto.
        -- intros [(r' & Hr & _) | (_ & r' & Hr & _ & <-)];
             [discriminate | now inversion Hr].
      * apply Z.eqb_neq in E2. split; [discriminate|].
        intros [(r' & Hr & _) | (_ & r' & Hr & H200 & _)];
          [discriminate | inversion Hr; subst; contradiction].
    + cbn [answer]. split; [discriminate|].
      intros [(r' & Hr & _) | (_ & r' & Hr & _)]; discriminate.
Qed.

(** X13: the config ID fetcher asks for the primary attribute first; when
    that answers 200 it sends nothing more, and otherwise, whether the
    request raised or was answered with another status, it sends exactly
    one more request, for the legacy attribute with the same header. *)
Theorem legacy_attribute_is_asked_after_a_failure metadata c :
  let run := fetch_service_config_id metadata c in
  let primary := (config_id_url metadata, metadata_headers) in
  let legacy := (service_version_url metadata, metadata_headers) in
  if answers (hd None (script c))
  then requests (network run) = (requests c ++ [primary])%list /\
       script (network run) = tl (script c)
  else requests (network run) = (requests c ++ [primary; legacy])%list /\
       script (network run) = tl (tl (script c)).
Proof.
  cbv zeta. rewrite fetch_service_config_id_cases. cbv zeta.
  destruct (hd None (script c)) as [r|]; cbn [answers].
  - destruct (status r =? 200); [now split|].
    destruct (hd None (tl (script c))) as [r2|];
      [destruct (status r2 =? 200)|]; cbn [network requests script];
      rewrite <- app_assoc; now split.
  - destruct (hd None (tl (script c))) as [r2|];
      [destruct (status r2 =? 200)|]; cbn [network requests script];
      rewrite <- app_assoc; now split.
Qed.

(** X14: when the config ID fetcher raises, both attributes have failed,
    and what it raises is a FetchError with code 1 that names the legacy
    URL, with the status of the legacy answer when there is one; the
    failure of the primary attribute is not reported. *)
Theorem config_id_errors_report_the_legacy_attribute metadata c e :
  answer (fetch_service_config_id metadata c) = Raise e ->
  answers (hd None (script c)) = false /\
  answers (hd None (tl (script c))) = false /\
  e = FetchError 1
        match hd None (tl (script c)) with
        | Some r => config_id_failed (service_version_url metadata) (status r)
        | None =>
            "Failed to fetch service config ID from the metadata server: "
              ++ service_version_url metadata
        end.
Proof.
  rewrite fetch_service_config_id_cases. cbv zeta.
  destruct (hd None (script c)) as [r|]; cbn [answers].
  - destruct (status r =? 200); [discriminate|].
    destruct (hd None (tl (script c))) as [r2|]; cbn [answers];
      [destruct (status r2 =? 200); [discriminate|]|];
      cbn [answer]; intros H; inversion H; auto.
  - destruct (hd None (tl (script c))) as [r2|]; cbn [answers];
      [destruct (status r2 =? 200); [discriminate|]|];
      cbn [answer]; intros H; inversion H; auto.
Qed.

(** * Error codes *)

Section Codes.

Variable json_loads : string -> option json.
Variable repr : json -> string.

Abbreviation rollout_loop := (rollout_loop json_loads repr).
Abbreviation fetch_latest_rollout := (fetch_latest_rollout json_loads repr).
Abbreviation validate_service_config := (validate_service_config repr).

Lemma rollout_loop_code service_name h pending :
  forall token sent code message,
    fst (rollout_loop service_name h token pending sent)
    = Raise (FetchError code message) ->
    code = 1.
Proof.
  induction pending as [|[r|] rest IH]; intros token sent code message;
    try (intros H; now inversion H).
  loop_turn.
  destruct (scan_page json_loads _ r) as [p|e| |next] eqn:E; cbn [fst].
  - discriminate.
  - intros H. inversion H; subst. now apply scan_page_failed in E.
  - intros H. now inversion H.
  - apply IH.
Qed.

(** X15: whatever the responses, a FetchError raised by the selector has
    code 1, and whatever the document and the expectations, a FetchError
    raised by the validator has code 2: the code tells a failed fetch from
    a failed validation. *)
Theorem code_1_is_fetching_and_code_2_is_validation :
  (forall service_name access_token c code message,
      fst (fetch_latest_rollout service_name access_token c)
      = Raise (FetchError code message) ->
      code = 1) /\
  (forall config expected_name expected_version code message,
      ended (validate_service_config config expected_name expected_version)
      = Raise (FetchError code message) ->
      code = 2).
Proof.
  split.
  - intros service_name access_token c code message. enter_loop.
    apply rollout_loop_code.
  - intros config expected_name expected_version code message.
    destruct config as [| | | | | |fields]; try discriminate.
    rewrite validate_dict. cbv zeta.
    repeat match goal with
           | |- context [if ?b then _ else _] => destruct b
           | |- context [match ?j with JNull => _ | _ => _ end] => destruct j
           end; cbn [ended]; intros H; inversion H; reflexivity.
Qed.

End Codes.

(** * More concrete runs *)

(** X2, at the three-page feed. *)
Lemma returned_percentages_on_feed :
  is_None (JObject [("v2", JInt 100)]) = false /\
  exists r before w after,
    In (Some r) (script Sample.feed_client) /\
    lists Sample.feed r (before ++ w :: after) /\
    Forall passed_over before /\
    successful w (JObject [("v2", JInt 100)]).
Proof.
  apply (returned_percentages_belong_to_a_successful_rollout
           Sample.feed Sample.plain "svc" None Sample.feed_client
           (JObject [("v2", JInt 100)])).
  reflexivity.
Defined.

(** X3, at a second page answered with 404. *)
Lemma not_found_on_page_two :
  fetch_latest_rollout Metadata.cut_off Sample.plain "svc" (Some "token")
    (mkClient [Some (Sample.ok "page-1"); Some Metadata.not_found;
               Some (Sample.ok "page-3")] [])
  = (Raise (FetchError 1
              "Fetching rollouts failed (status code 404, reason Not Found, url https://servicemanagement.googleapis.com/v1/services/svc/rollouts?pageToken=t1)"),
     mkClient [Some (Sample.ok "page-3")]
       [("https://servicemanagement.googleapis.com/v1/services/svc/rollouts?pageToken=",
         [("Authorization", "Bearer token")]);
        ("https://servicemanagement.googleapis.com/v1/services/svc/rollouts?pageToken=t1",
         [("Authorization", "Bearer token")])]).
Proof.
  apply (failed_request_raises_FetchError Metadata.cut_off Sample.plain
           "svc" (Some "token")
           (mkClient [Some (Sample.ok "page-1"); Some Metadata.not_found;
                      Some (Sample.ok "page-3")] [])
           [(Sample.ok "page-1", JString "t1")]
           [Some Metadata.not_found; Some (Sample.ok "page-3")]).
  - reflexivity.
  - constructor; [|constructor].
    exists [Sample.failed].
    split; [is_page | split; [|reflexivity]].
    constructor; [other_status | constructor].
  - reflexivity.
Defined.

(** X4, at a page whose second record has no status. *)
Lemma record_without_status_on_torn_page :
  fst (fetch_latest_rollout Metadata.torn Sample.plain "svc" None Sample.one_page)
  = Raise (KeyError "status") /\
  script (snd (fetch_latest_rollout Metadata.torn Sample.plain "svc" None
                 Sample.one_page))
  = [].
Proof.
  apply (unreadable_record_stops_the_scan Metadata.torn Sample.plain "svc" None
           Sample.one_page [] (Sample.ok "page-1")
           [Sample.failed] (JObject [("rolloutId", JString "r9")]) [Sample.current]
           (KeyError "status") []).
  - reflexivity.
  - constructor.
  - is_list.
  - constructor; [other_status | constructor].
  - apply StatusMissing. reflexivity.
Defined.

(** X5, at a body whose rollouts are the number 3. *)
Lemma rollouts_that_are_a_number :
  fst (fetch_latest_rollout Metadata.counted Sample.plain "svc" None Sample.one_page)
  = Raise TypeError.
Proof.
  apply (rollouts_that_are_no_list Metadata.counted Sample.plain "svc" None
           Sample.one_page (Sample.ok "page-1")
           (JObject [("rollouts", JInt 3); ("nextPageToken", JNull)]) (JInt 3) []);
    try reflexivity; try field; discriminate.
Defined.

(** X7, at the sandbox config. *)
Lemma validated_sandbox_config :
  let run := validate_service_config Sample.plain Sample.sandbox_config "a" "v1" in
  exists fields section environment,
    document run = JObject fields /\
    Dict.get "name" fields = Some (JString "a") /\
    Dict.get "id" fields = Some (JString "v1") /\
    Dict.get "control" fields = Some (JObject section) /\
    Dict.get "environment" section = Some environment /\
    truthy environment = true /\
    eq_str environment sandbox_environment = false /\
    (warnings run = [] <-> document run = Sample.sandbox_config).
Proof.
  cbv zeta.
  apply (validated_document_meets_expectations Sample.plain
           Sample.sandbox_config "a" "v1").
  reflexivity.
Defined.

(** X8, at a config whose control section is a string. *)
Lemma control_that_is_a_string :
  validate_service_config Sample.plain Metadata.stray_control "a" "v1"
  = mkValidation (Raise AttributeError) Metadata.stray_control [].
Proof.
  apply (control_that_is_no_dict Sample.plain
           [("name", JString "a"); ("id", JString "v1");
            ("control", JString "servicecontrol.googleapis.com")]
           "a" "v1" (JString "servicecontrol.googleapis.com"));
    try reflexivity; discriminate.
Defined.

(** X14, at a primary attribute answered with 404 and a legacy one answered
    with 500: only the 500 of the legacy URL is reported. *)
Lemma both_attributes_fail :
  let c := mkClient [Some Metadata.not_found;
                     Some (mkResponse 500 "Internal Server Error" "")] [] in
  let e := FetchError 1
             "Fetching service config ID failed (url http://metadata.google.internal/computeMetadata/v1/instance/attributes/endpoints-service-version, status code 500)" in
  answer (fetch_service_config_id Metadata.server c) = Raise e /\
  answers (hd None (script c)) = false /\
  answers (hd None (tl (script c))) = false /\
  e = FetchError 1 (config_id_failed (service_version_url Metadata.server) 500).
Proof.
  cbv zeta. split; [reflexivity|].
  apply (config_id_errors_report_the_legacy_attribute Metadata.server
           (mkClient [Some Metadata.not_found;
                      Some (mkResponse 500 "Internal Server Error" "")] [])).
  reflexivity.
Defined.

(** Rollouts that are an empty dict are scanned like an empty list. *)
Example rollouts_that_are_an_empty_dict :
  fst (fetch_latest_rollout Metadata.hollow Sample.plain "svc" None Sample.one_page)
  = Raise (FetchError 1
             "Fetching rollouts failed (status code 200, reason OK, url https://servicemanagement.googleapis.com/v1/services/svc/rollouts?pageToken=)").
Proof. reflexivity. Qed.

(** The token of a token body, and the single request made for it. *)
Example access_token_of_token_body :
  fetch_access_token Metadata.tokens Metadata.server
    (mkClient [Some (Sample.ok "token")] [])
  = (Return (JString "ya29.token"),
     mkClient []
       [("http://metadata.google.internal/computeMetadata/v1/instance/service-accounts/default/token",
         [("Metadata-Flavor", "Google")])]).
Proof. reflexivity. Qed.

(** A config with the production environment validates untouched. *)
Example production_config_is_left_alone :
  validate_service_config Sample.plain Metadata.production_config "a" "v1"
  = mkValidation (Return tt) Metadata.production_config [].
Proof. reflexivity. Qed.

(** The config ID from the legacy attribute after a 404 on the primary. *)
Example config_id_from_the_legacy_attribute :
  fetch_service_config_id Metadata.server
    (mkClient [Some Metadata.not_found; Some (Sample.ok "2017-05-01r0")] [])
  = mkFetched (Return "2017-05-01r0")
      (mkClient []
         [("http://metadata.google.internal/computeMetadata/v1/instance/attributes/endpoints-service-config-id",
           [("Metadata-Flavor", "Google")]);
          ("http://metadata.google.internal/computeMetadata/v1/instance/attributes/endpoints-service-version",
           [("Metadata-Flavor", "Google")])])
      ["Service config ID:2017-05-01r0"].
Proof. reflexivity. Qed.
